(** * aws-broker, services/rds: parameter groups and instance modification

    A shallow embedding of [services/rds/parameter_group.go] and of the
    [modify] operation exercised by [TestModifyInstance].

    Conventions of the embedding.
    - A Go string is a [string] (a sequence of bytes).
    - A pointer field of an SDK structure ([*string], [*EngineDefaults],
      an element of a [[]*Parameter]) is an [option]; dereferencing [None]
      is a run-time panic, which the model makes an explicit outcome.
    - A method of the control-plane client ([rdsiface.RDSAPI]) is a function
      of the request and of the control plane's state; it returns the new
      state with the response.
    - Every call issued to the client and every line given to [log] is
      appended to a trace, so that "no call is made" and "silently" can be
      stated.
    - The [for] loop over pages carries a fuel argument; [OutOfFuel] stands
      for more iterations than the fuel given. *)

From Stdlib Require Import ZArith String Ascii List Bool Lia.
From stdpp Require Import base option gmap strings list.

Local Open Scope string_scope.

(* Let [simpl] compute the append of a literal. *)
#[local] Arguments String.append !s1 s2 : simpl nomatch.

(** ** Data model *)

(** Modelled from the spec: the declaration of the [RDSInstance] structure is
    not among the sources (only its uses are); the fields below are those
    [parameter_group.go] and the tests read or write, typed as
    [parameter_group.go] uses them. *)
Record RDSInstance := {
  Database : string;
  DbType : string;
  DbVersion : string;
  AllocatedStorage : Z;
  BackupRetentionPeriod : Z;
  BinaryLogFormat : string;
  EnableFunctions : bool;
  EnablePgCron : bool;
  ParameterGroupFamily : string;
}.

Definition emptyInstance : RDSInstance :=
  {| Database := ""; DbType := ""; DbVersion := ""; AllocatedStorage := 0;
     BackupRetentionPeriod := 0; BinaryLogFormat := ""; EnableFunctions := false;
     EnablePgCron := false; ParameterGroupFamily := "" |}.

Definition set_ParameterGroupFamily (i : RDSInstance) (f : string) : RDSInstance :=
  {| Database := Database i; DbType := DbType i; DbVersion := DbVersion i;
     AllocatedStorage := AllocatedStorage i;
     BackupRetentionPeriod := BackupRetentionPeriod i;
     BinaryLogFormat := BinaryLogFormat i; EnableFunctions := EnableFunctions i;
     EnablePgCron := EnablePgCron i; ParameterGroupFamily := f |}.

Definition set_AllocatedStorage (i : RDSInstance) (n : Z) : RDSInstance :=
  {| Database := Database i; DbType := DbType i; DbVersion := DbVersion i;
     AllocatedStorage := n;
     BackupRetentionPeriod := BackupRetentionPeriod i;
     BinaryLogFormat := BinaryLogFormat i; EnableFunctions := EnableFunctions i;
     EnablePgCron := EnablePgCron i; ParameterGroupFamily := ParameterGroupFamily i |}.

Definition set_BackupRetentionPeriod (i : RDSInstance) (n : Z) : RDSInstance :=
  {| Database := Database i; DbType := DbType i; DbVersion := DbVersion i;
     AllocatedStorage := AllocatedStorage i;
     BackupRetentionPeriod := n;
     BinaryLogFormat := BinaryLogFormat i; EnableFunctions := EnableFunctions i;
     EnablePgCron := EnablePgCron i; ParameterGroupFamily := ParameterGroupFamily i |}.

Definition set_BinaryLogFormat (i : RDSInstance) (f : string) : RDSInstance :=
  {| Database := Database i; DbType := DbType i; DbVersion := DbVersion i;
     AllocatedStorage := AllocatedStorage i;
     BackupRetentionPeriod := BackupRetentionPeriod i;
     BinaryLogFormat := f; EnableFunctions := EnableFunctions i;
     EnablePgCron := EnablePgCron i; ParameterGroupFamily := ParameterGroupFamily i |}.

Definition set_EnablePgCron (i : RDSInstance) (b : bool) : RDSInstance :=
  {| Database := Database i; DbType := DbType i; DbVersion := DbVersion i;
     AllocatedStorage := AllocatedStorage i;
     BackupRetentionPeriod := BackupRetentionPeriod i;
     BinaryLogFormat := BinaryLogFormat i; EnableFunctions := EnableFunctions i;
     EnablePgCron := b; ParameterGroupFamily := ParameterGroupFamily i |}.

Definition set_DbVersion (i : RDSInstance) (v : string) : RDSInstance :=
  {| Database := Database i; DbType := DbType i; DbVersion := v;
     AllocatedStorage := AllocatedStorage i;
     BackupRetentionPeriod := BackupRetentionPeriod i;
     BinaryLogFormat := BinaryLogFormat i; EnableFunctions := EnableFunctions i;
     EnablePgCron := EnablePgCron i; ParameterGroupFamily := ParameterGroupFamily i |}.

(** Modelled from the spec: [config.Settings] is declared outside the
    sources; the field is the one [parameter_group.go] reads. *)
Record Settings := { EnableFunctionsFeature : bool }.

(** Modelled from the spec: [Options] and [catalog.RDSPlan] are declared
    outside the sources; the fields are those [TestModifyInstance] sets.
    [EnablePgCron] of the options is a [*bool]: nil when the request does not
    mention the flag. *)
Record Options := {
  optAllocatedStorage : Z;
  optBackupRetentionPeriod : Z;
  optBinaryLogFormat : string;
  optEnablePgCron : option bool;
}.

Record RDSPlan := { planDbVersion : string }.

(** ** Errors, panics and the trace *)

(** A Go [error] value. [AwsErr] is a value that satisfies [awserr.Error] (it
    has a code); [PlainErr] is any other error (an [errors.New]); [WrapErr] is
    what [fmt.Errorf] with [%w] builds. *)
Inductive error :=
| AwsErr (code message : string)
| PlainErr (message : string)
| WrapErr (context : string) (inner : error).

Inductive panic :=
| NilDereference
| IndexOutOfRange
| TypeAssertion.

Inductive outcome (A : Type) :=
| Done (a : A)
| Panicked (p : panic)
| OutOfFuel.
Arguments Done {A} a.
Arguments Panicked {A} p.
Arguments OutOfFuel {A}.

(** ** The control-plane client: requests and responses of the SDK

    The structures of [github.com/aws/aws-sdk-go/service/rds], with the
    fields the package reads or writes. A field name that several structures
    share ([Marker], [DBParameterGroupName], [DBParameterGroupFamily]) carries
    a prefix in all but one of them. *)

Record DescribeDBEngineVersionsInput := {
  DefaultOnly : bool;
  Engine : string;
}.

Record DBEngineVersion := { DBParameterGroupFamily : option string }.

Record DescribeDBEngineVersionsOutput := {
  DBEngineVersions : list (option DBEngineVersion);
}.

Record DescribeDBParametersInput := {
  ddpDBParameterGroupName : string;
  ddpMaxRecords : Z;
  ddpSource : string;
}.

Record CreateDBParameterGroupInput := {
  cgDBParameterGroupFamily : string;
  cgDBParameterGroupName : string;
  cgDescription : string;
}.

(** [rds.Parameter] ([Parameter] is a reserved word here). *)
Record RdsParameter := {
  ApplyMethod : option string;
  ParameterName : option string;
  ParameterValue : option string;
}.

Record ModifyDBParameterGroupInput := {
  mgDBParameterGroupName : string;
  mgParameters : list (option RdsParameter);
}.

Record DescribeEngineDefaultParametersInput := {
  edDBParameterGroupFamily : string;
  edMarker : option string;
}.

Record EngineDefaults := {
  Marker : option string;
  edParameters : list (option RdsParameter);
}.

Record DescribeEngineDefaultParametersOutput := {
  engineDefaults : option EngineDefaults;
}.

Record DescribeDBParameterGroupsInput := { dgMarker : option string }.

Record DBParameterGroup := { DBParameterGroupName : option string }.

Record DescribeDBParameterGroupsOutput := {
  DBParameterGroups : list (option DBParameterGroup);
  dgNextMarker : option string;
}.

Record DeleteDBParameterGroupInput := { delDBParameterGroupName : string }.

(** The methods of [rdsiface.RDSAPI] that the package calls. [W] is the state
    of the control plane (or of a test double). A method whose first result
    the package discards returns the error alone. [DescribeDBParameterGroups]
    is the request that the SDK's [DescribeDBParameterGroupsPages] sends for
    each page: it yields the decoded page or the error. *)
Record RDSAPI (W : Type) := {
  DescribeDBEngineVersions :
    DescribeDBEngineVersionsInput -> W ->
    W * (option DescribeDBEngineVersionsOutput * option error);
  DescribeDBParameters : DescribeDBParametersInput -> W -> W * option error;
  CreateDBParameterGroup : CreateDBParameterGroupInput -> W -> W * option error;
  ModifyDBParameterGroup : ModifyDBParameterGroupInput -> W -> W * option error;
  DescribeEngineDefaultParameters :
    DescribeEngineDefaultParametersInput -> W ->
    W * (option DescribeEngineDefaultParametersOutput * option error);
  DescribeDBParameterGroups :
    DescribeDBParameterGroupsInput -> W ->
    W * (DescribeDBParameterGroupsOutput + error);
  DeleteDBParameterGroup : DeleteDBParameterGroupInput -> W -> W * option error;
}.
Arguments DescribeDBEngineVersions {W} _ _ _.
Arguments DescribeDBParameters {W} _ _ _.
Arguments CreateDBParameterGroup {W} _ _ _.
Arguments ModifyDBParameterGroup {W} _ _ _.
Arguments DescribeEngineDefaultParameters {W} _ _ _.
Arguments DescribeDBParameterGroups {W} _ _ _.
Arguments DeleteDBParameterGroup {W} _ _ _.

Inductive event :=
| CallDescribeDBEngineVersions (input : DescribeDBEngineVersionsInput)
| CallDescribeDBParameters (input : DescribeDBParametersInput)
| CallCreateDBParameterGroup (input : CreateDBParameterGroupInput)
| CallModifyDBParameterGroup (input : ModifyDBParameterGroupInput)
| CallDescribeEngineDefaultParameters (input : DescribeEngineDefaultParametersInput)
| CallDescribeDBParameterGroups (input : DescribeDBParameterGroupsInput)
| CallDeleteDBParameterGroup (input : DeleteDBParameterGroupInput)
| Log (line : string).

(** ** The monad of the embedding: control-plane state, trace, panics *)

Record state (W : Type) := { world : W; trace : list event }.
Arguments world {W} _.
Arguments trace {W} _.
Arguments Build_state {W} _ _.

Definition M (W A : Type) : Type := state W -> state W * outcome A.

Definition ret {W A} (a : A) : M W A := fun st => (st, Done a).

Definition bind {W A B} (m : M W A) (k : A -> M W B) : M W B :=
  fun st =>
    match m st with
    | (st', Done a) => k a st'
    | (st', Panicked p) => (st', Panicked p)
    | (st', OutOfFuel) => (st', OutOfFuel)
    end.

Definition raise {W A} (p : panic) : M W A := fun st => (st, Panicked p).

Definition out_of_fuel {W A} : M W A := fun st => (st, OutOfFuel).

Definition emit {W} (e : event) : M W unit :=
  fun st => ({| world := world st; trace := trace st ++ [e] |}, Done tt).

(** [log.Printf] and [log.Println]: the line, without the logger's prefix. *)
Definition log_line {W} (line : string) : M W unit := emit (Log line).

(** A call of a client method: recorded in the trace, then run on the
    control plane's state. *)
Definition call {W I R} (ev : I -> event) (op : I -> W -> W * R) (input : I) : M W R :=
  fun st =>
    let '(w', r) := op input (world st) in
    ({| world := w'; trace := trace st ++ [ev input] |}, Done r).

Notation "x <- m ;; k" := (bind m (fun x => k))
  (at level 100, m at next level, right associativity).
Notation "m ;;; k" := (bind m (fun _ => k))
  (at level 100, right associativity).

(** [*p] for a pointer [p]. *)
Definition deref {W A} (p : option A) : M W A :=
  match p with
  | Some a => ret a
  | None => raise NilDereference
  end.

(** ** Constants *)

Definition pGroupPrefixReal : string := "cg-aws-broker-".
Definition pGroupPrefix : string := pGroupPrefixReal.
Definition pgCronLibraryName : string := "pg_cron".

(** ** The pattern of [getParameterGroupFamily]: [^\d+\.*\d*] *)

Definition is_digit (c : ascii) : bool :=
  let n := nat_of_ascii c in (48 <=? n)%nat && (n <=? 57)%nat.

Definition is_dot (c : ascii) : bool := Ascii.eqb c ".".

(** The longest prefix whose bytes satisfy [p], and the rest: one greedy
    repetition ([x*]) of the pattern. *)
Fixpoint span (p : ascii -> bool) (s : string) : string * string :=
  match s with
  | EmptyString => (EmptyString, EmptyString)
  | String c r =>
      if p c then let '(a, b) := span p r in (String c a, b)
      else (EmptyString, s)
  end.

(** [regexp.MustCompile(`^\d+\.*\d*`).Find(b)]: anchored at the start, one or
    more digits, then any number of dots, then any number of digits, each
    repetition greedy; [None] is the nil slice of "no match". *)
Definition re_version_Find (b : string) : option string :=
  let '(major, r1) := span is_digit b in
  match major with
  | EmptyString => None
  | _ =>
      let '(dots, r2) := span is_dot r1 in
      let '(minor, _) := span is_digit r2 in
      Some (major +:+ dots +:+ minor)
  end.

(** [string(b)] for a byte slice [b]: the nil slice is the empty string. *)
Definition string_of_bytes (b : option string) : string := default "" b.

(** The leading numeric token of a version string. *)
Definition version_token (v : string) : string :=
  string_of_bytes (re_version_Find v).

(** ** [parameter_group.go] *)

Section ParameterGroupAdapter.

Context {W : Type}.
Variable svc : RDSAPI W.

(** [func (p *parameterGroupAdapter) getParameterGroupFamily(i *RDSInstance) error];
    the instance is returned with the error, as the function writes to it. *)
Definition getParameterGroupFamily (i : RDSInstance) : M W (RDSInstance * option error) :=
  if negb (String.eqb (ParameterGroupFamily i) "") then ret (i, None)
  else if String.eqb (DbVersion i) "" then
    let dbEngineVersionsInput := {| DefaultOnly := true; Engine := DbType i |} in
    r <- call CallDescribeDBEngineVersions (DescribeDBEngineVersions svc)
              dbEngineVersionsInput ;;
    let '(defaultEngineInfo, err) := r in
    match err with
    | Some e => ret (i, Some e)
    | None =>
        info <- deref defaultEngineInfo ;;
        match DBEngineVersions info with
        | [] => raise IndexOutOfRange
        | v0 :: _ =>
            v <- deref v0 ;;
            parameterGroupFamily <- deref (DBParameterGroupFamily v) ;;
            ret (set_ParameterGroupFamily i parameterGroupFamily, None)
        end
    end
  else
    let dbversion := re_version_Find (DbVersion i) in
    let parameterGroupFamily := DbType i +:+ string_of_bytes dbversion in
    ret (set_ParameterGroupFamily i parameterGroupFamily, None).

(** [func (p *parameterGroupAdapter) checkIfParameterGroupExists(pgroupName string) bool] *)
Definition checkIfParameterGroupExists (pgroupName : string) : M W bool :=
  let dbParametersInput :=
    {| ddpDBParameterGroupName := pgroupName; ddpMaxRecords := 20;
       ddpSource := "system" |} in
  err <- call CallDescribeDBParameters (DescribeDBParameters svc) dbParametersInput ;;
  let parameterGroupExists := match err with None => true | Some _ => false end in
  (if parameterGroupExists
   then log_line (pgroupName +:+ " parameter group already exists")
   else ret tt) ;;;
  ret parameterGroupExists.

(** [i.FormatDBName()] is declared outside the sources at hand; it is a
    parameter of the development. *)
Variable FormatDBName : RDSInstance -> string.

(** The parameter list built by ranging over [customparams[i.DbType]]. Go
    leaves the order of a map iteration unspecified; the model takes the order
    of [map_to_list]. *)
Definition parameters_of (m : gmap string string) : list (option RdsParameter) :=
  (fun kv : string * string =>
     Some {| ApplyMethod := Some "immediate";
             ParameterName := Some (fst kv);
             ParameterValue := Some (snd kv) |}) <$> map_to_list m.

(** [func (p *parameterGroupAdapter) createOrModifyCustomParameterGroup(i, customparams) (string, error)] *)
Definition createOrModifyCustomParameterGroup
    (i : RDSInstance) (customparams : gmap string (gmap string string))
    : M W (RDSInstance * (string * option error)) :=
  let pgroupName := pGroupPrefix +:+ FormatDBName i in
  parameterGroupExists <- checkIfParameterGroupExists pgroupName ;;
  created <-
    (if negb parameterGroupExists then
       r <- getParameterGroupFamily i ;;
       let '(i1, err) := r in
       match err with
       | Some e =>
           ret (i1, Some (WrapErr "encounted error getting parameter group family" e))
       | None =>
           log_line ("creating a parameter group named " +:+ pgroupName +:+
                     " in the family of " +:+ ParameterGroupFamily i1) ;;;
           let createInput :=
             {| cgDBParameterGroupFamily := ParameterGroupFamily i1;
                cgDBParameterGroupName := pgroupName;
                cgDescription := "aws broker parameter group for " +:+ FormatDBName i1 |} in
           err <- call CallCreateDBParameterGroup (CreateDBParameterGroup svc) createInput ;;
           match err with
           | Some e => ret (i1, Some (WrapErr "encounted error when creating database" e))
           | None => ret (i1, None)
           end
       end
     else ret (i, None)) ;;
  let '(i1, failed) := created in
  match failed with
  | Some e => ret (i1, ("", Some e))
  | None =>
      let parameters := parameters_of (default ∅ (customparams !! DbType i1)) in
      let modifyinput :=
        {| mgDBParameterGroupName := pgroupName; mgParameters := parameters |} in
      err <- call CallModifyDBParameterGroup (ModifyDBParameterGroup svc) modifyinput ;;
      match err with
      | Some e => ret (i1, ("", Some e))
      | None => ret (i1, (pgroupName, None))
      end
  end.

(** [func (p *parameterGroupAdapter) needCustomParameters(i *RDSInstance, s config.Settings) bool] *)
Definition needCustomParameters (i : RDSInstance) (s : Settings) : bool :=
  if EnableFunctions i && EnableFunctionsFeature s && String.eqb (DbType i) "mysql"
  then true
  else if negb (String.eqb (BinaryLogFormat i) "") && String.eqb (DbType i) "mysql"
  then true
  else if EnablePgCron i && String.eqb (DbType i) "postgres"
  then true
  else false.

(** [result.EngineDefaults.Marker == nil || *result.EngineDefaults.Marker == ""] *)
Definition marker_is_empty (m : option string) : bool :=
  match m with
  | None => true
  | Some s => String.eqb s ""
  end.

(** The inner [for _, param := range result.EngineDefaults.Parameters] of
    [getDefaultEngineParameter]: [Some v] is the early [return v, nil]. *)
Fixpoint scanParameters (paramName : string) (params : list (option RdsParameter))
    : M W (option string) :=
  match params with
  | [] => ret None
  | param :: rest =>
      p <- deref param ;;
      name <- deref (ParameterName p) ;;
      if String.eqb name paramName then
        value <- deref (ParameterValue p) ;;
        log_line ("found default parameter value " +:+ value +:+
                  " for parameter " +:+ name) ;;;
        ret (Some value)
      else scanParameters paramName rest
  end.

(** The [for { ... }] of [getDefaultEngineParameter]; [fuel] bounds the number
    of iterations the model follows, the code has no bound. *)
Fixpoint engineDefaultsLoop (fuel : nat) (paramName : string)
    (describeEngDefaultParamsInput : DescribeEngineDefaultParametersInput)
    : M W (string * option error) :=
  match fuel with
  | O => out_of_fuel
  | S fuel' =>
      r <- call CallDescribeEngineDefaultParameters
                (DescribeEngineDefaultParameters svc) describeEngDefaultParamsInput ;;
      let '(result, err) := r in
      match err with
      | Some e => ret ("", Some e)
      | None =>
          res <- deref result ;;
          defaults <- deref (engineDefaults res) ;;
          found <- scanParameters paramName (edParameters defaults) ;;
          match found with
          | Some value => ret (value, None)
          | None =>
              if marker_is_empty (Marker defaults) then ret ("", None)
              else
                engineDefaultsLoop fuel' paramName
                  {| edDBParameterGroupFamily :=
                       edDBParameterGroupFamily describeEngDefaultParamsInput;
                     edMarker := Marker defaults |}
          end
      end
  end.

(** [func (p *parameterGroupAdapter) getDefaultEngineParameter(paramName string, i *RDSInstance) (string, error)] *)
Definition getDefaultEngineParameter (fuel : nat) (paramName : string) (i : RDSInstance)
    : M W (RDSInstance * (string * option error)) :=
  r <- getParameterGroupFamily i ;;
  let '(i1, err) := r in
  match err with
  | Some e => ret (i1, ("", Some e))
  | None =>
      let describeEngDefaultParamsInput :=
        {| edDBParameterGroupFamily := ParameterGroupFamily i1; edMarker := None |} in
      res <- engineDefaultsLoop fuel paramName describeEngDefaultParamsInput ;;
      ret (i1, res)
  end.

(** [strings.Join(libraries, ",")] *)
Fixpoint strings_Join (elems : list string) (sep : string) : string :=
  match elems with
  | [] => ""
  | [x] => x
  | x :: rest => x +:+ sep +:+ strings_Join rest sep
  end.

(** [func (p *parameterGroupAdapter) buildCustomSharePreloadLibrariesParam(i, customLibrary) (string, error)] *)
Definition buildCustomSharePreloadLibrariesParam (fuel : nat) (i : RDSInstance)
    (customLibrary : string) : M W (RDSInstance * (string * option error)) :=
  r <- getDefaultEngineParameter fuel "shared_preload_libraries" i ;;
  let '(i1, (defaultSharedPreloadLibraries, err)) := r in
  match err with
  | Some e => ret (i1, ("", Some e))
  | None =>
      let libraries := [customLibrary] in
      let libraries :=
        if negb (String.eqb defaultSharedPreloadLibraries "")
        then (libraries ++ [defaultSharedPreloadLibraries])%list
        else libraries in
      ret (i1, (strings_Join libraries ",", None))
  end.

(** [m[engine][name] = value] on a map of maps. *)
Definition set_param (engine name value : string)
    (m : gmap string (gmap string string)) : gmap string (gmap string string) :=
  alter (fun params => <[name := value]> params) engine m.

(** The [mysql] block of [getCustomParameters], which calls nothing. *)
Definition mysqlParameters (i : RDSInstance) (s : Settings)
    (customRDSParameters : gmap string (gmap string string))
    : gmap string (gmap string string) :=
  let customRDSParameters := <["mysql" := ∅]> customRDSParameters in
  let customRDSParameters :=
    if EnableFunctions i && EnableFunctionsFeature s
    then set_param "mysql" "log_bin_trust_function_creators" "1" customRDSParameters
    else set_param "mysql" "log_bin_trust_function_creators" "0" customRDSParameters in
  if negb (String.eqb (BinaryLogFormat i) "")
  then set_param "mysql" "binlog_format" (BinaryLogFormat i) customRDSParameters
  else customRDSParameters.

(** [func (p *parameterGroupAdapter) getCustomParameters(i, s) (map[string]map[string]string, error)];
    the nil map of the error return is the empty map. *)
Definition getCustomParameters (fuel : nat) (i : RDSInstance) (s : Settings)
    : M W (RDSInstance * (gmap string (gmap string string) * option error)) :=
  let customRDSParameters : gmap string (gmap string string) := ∅ in
  let customRDSParameters :=
    if String.eqb (DbType i) "mysql"
    then mysqlParameters i s customRDSParameters
    else customRDSParameters in
  if String.eqb (DbType i) "postgres" then
    let customRDSParameters := <["postgres" := ∅]> customRDSParameters in
    if EnablePgCron i then
      r <- buildCustomSharePreloadLibrariesParam fuel i pgCronLibraryName ;;
      let '(i1, (preloadLibrariesParam, err)) := r in
      match err with
      | Some e => ret (i1, (∅, Some e))
      | None =>
          ret (i1, (set_param "postgres" "shared_preload_libraries"
                      preloadLibrariesParam customRDSParameters, None))
      end
    else ret (i, (customRDSParameters, None))
  else ret (i, (customRDSParameters, None)).

(** [err.Error()] *)
Fixpoint Error_ (e : error) : string :=
  match e with
  | AwsErr code message => code +:+ ": " +:+ message
  | PlainErr message => message
  | WrapErr context inner => context +:+ ": " +:+ Error_ inner
  end.

(** [func (p *parameterGroupAdapter) ProvisionCustomParameterGroupIfNecessary(i, d) (string, error)];
    of [d] only [d.settings] is read. *)
Definition ProvisionCustomParameterGroupIfNecessary (fuel : nat) (i : RDSInstance)
    (settings : Settings) : M W (RDSInstance * (string * option error)) :=
  if negb (needCustomParameters i settings) then ret (i, ("", None))
  else
    r <- getCustomParameters fuel i settings ;;
    let '(i1, (customRDSParameters, err)) := r in
    match err with
    | Some e =>
        ret (i1, ("", Some (WrapErr "encountered error getting custom parameters" e)))
    | None =>
        r <- createOrModifyCustomParameterGroup i1 customRDSParameters ;;
        let '(i2, (pgroupName, err)) := r in
        match err with
        | Some e =>
            log_line (Error_ e) ;;;
            ret (i2, ("", Some (WrapErr "encountered error applying parameter group" e)))
        | None => ret (i2, (pgroupName, None))
        end
    end.

(** [regexp.Match("^"+pGroupPrefix, name)]: the prefix holds no
    metacharacter (a hyphen is literal outside a class), so the pattern
    compiles and matches exactly the names that start with the prefix. *)
Definition regexp_Match_prefix (name : string) : bool * option error :=
  (String.prefix pGroupPrefix name, None).

(** [err.(awserr.Error).Code()]: the assertion panics on an error that is not
    an [awserr.Error]. *)
Definition awserr_Code (e : error) : M W string :=
  match e with
  | AwsErr code _ => ret code
  | _ => raise TypeAssertion
  end.

(** The body of [for _, pgroup := range pgroups.DBParameterGroups] in
    [cleanupCustomParameterGroups]. *)
Definition cleanupGroup (pgroup : option DBParameterGroup) : M W unit :=
  g <- deref pgroup ;;
  name <- deref (DBParameterGroupName g) ;;
  let '(matched, err) := regexp_Match_prefix name in
  (match err with
   | Some e =>
       log_line ("error trying to match " +:+ pGroupPrefix +:+ " in " +:+ name +:+
                 ": " +:+ Error_ e)
   | None => ret tt
   end) ;;;
  if matched then
    let deleteinput := {| delDBParameterGroupName := name |} in
    err <- call CallDeleteDBParameterGroup (DeleteDBParameterGroup svc) deleteinput ;;
    match err with
    | None => log_line ("cleaned up " +:+ name +:+ " parameter group")
    | Some e =>
        code <- awserr_Code e ;;
        if negb (String.eqb code "InvalidDBParameterGroupState")
        then log_line ("There was an error cleaning up the " +:+ name +:+
                       " parameter group.  The error was: " +:+ Error_ e)
        else ret tt
    end
  else ret tt.

Fixpoint cleanupGroups (pgroups : list (option DBParameterGroup)) : M W unit :=
  match pgroups with
  | [] => ret tt
  | pgroup :: rest => cleanupGroup pgroup ;;; cleanupGroups rest
  end.

(** The callback given to [DescribeDBParameterGroupsPages]. *)
Definition cleanupPage (pgroups : DescribeDBParameterGroupsOutput) (lastPage : bool)
    : M W bool :=
  cleanupGroups (DBParameterGroups pgroups) ;;;
  ret true.

(** The SDK's [DescribeDBParameterGroupsPages(input, fn)]: it requests page
    after page, hands each to [fn] with the flag of the last page, and stops
    at the last page, when [fn] returns false, or at a failed request, whose
    error it returns. The SDK has no bound on the number of pages. *)
Fixpoint DescribeDBParameterGroupsPages (fuel : nat)
    (input : DescribeDBParameterGroupsInput)
    (fn : DescribeDBParameterGroupsOutput -> bool -> M W bool) : M W (option error) :=
  match fuel with
  | O => out_of_fuel
  | S fuel' =>
      r <- call CallDescribeDBParameterGroups (DescribeDBParameterGroups svc) input ;;
      match r with
      | inr e => ret (Some e)
      | inl page =>
          let lastPage := marker_is_empty (dgNextMarker page) in
          continue <- fn page lastPage ;;
          if continue && negb lastPage
          then DescribeDBParameterGroupsPages fuel' {| dgMarker := dgNextMarker page |} fn
          else ret None
      end
  end.

(** [func cleanupCustomParameterGroups(svc rdsiface.RDSAPI)] *)
Definition cleanupCustomParameterGroups (fuel : nat) : M W unit :=
  let input := {| dgMarker := None |} in
  err <- DescribeDBParameterGroupsPages fuel input cleanupPage ;;
  match err with
  | Some e =>
      log_line ("Could not retrieve list of parameter groups while cleaning up: " +:+
                Error_ e)
  | None => ret tt
  end.

End ParameterGroupAdapter.

(** ** The Diff/Merge engine: [modify] *)

Definition storageDecreaseError : error := PlainErr "storage cannot be decreased".

(** Modelled from the spec: [func (i *RDSInstance) modify(options, plan,
    settings) error] is not among the sources; only [TestModifyInstance],
    which calls it, is. The definition follows section 4.1 of the
    specification field by field, in its order: allocated storage (zero is no
    change, a decrease is the validation failure and leaves the field, any
    other value is stored), backup retention period, binary log format, the
    tri-state pg-cron flag, and the plan's engine version. The validation
    failure is returned; the later fields are still applied. The instance is
    returned with the error, as the operation writes to it. *)
Definition modify (i : RDSInstance) (options : Options) (plan : RDSPlan)
    (settings : Settings) : RDSInstance * option error :=
  let '(i, err) :=
    if (optAllocatedStorage options =? 0)%Z then (i, None)
    else if (optAllocatedStorage options <? AllocatedStorage i)%Z
    then (i, Some storageDecreaseError)
    else (set_AllocatedStorage i (optAllocatedStorage options), None) in
  let i :=
    if (optBackupRetentionPeriod options =? 0)%Z then i
    else set_BackupRetentionPeriod i (optBackupRetentionPeriod options) in
  let i :=
    if String.eqb (optBinaryLogFormat options) "" then i
    else set_BinaryLogFormat i (optBinaryLogFormat options) in
  let i :=
    match optEnablePgCron options with
    | None => i
    | Some b => set_EnablePgCron i b
    end in
  let i :=
    if String.eqb (planDbVersion plan) "" then i
    else set_DbVersion i (planDbVersion plan) in
  (i, err).

(** * The vocabulary of the properties *)

(** ** Strings *)

(** Every byte of [s] satisfies [p]. *)
Fixpoint all_bytes (p : ascii -> bool) (s : string) : bool :=
  match s with
  | EmptyString => true
  | String c r => p c && all_bytes p r
  end.

(** [s] is empty or its first byte does not satisfy [p]. *)
Definition stops (p : ascii -> bool) (s : string) : bool :=
  match s with
  | EmptyString => true
  | String c _ => negb (p c)
  end.

(** ** What a trace shows *)

(** The requests for a page of engine defaults in a trace. *)
Definition is_page_request (e : event) : bool :=
  match e with
  | CallDescribeEngineDefaultParameters _ => true
  | _ => false
  end.

Definition page_requests (t : list event) : nat :=
  length (List.filter is_page_request t).

(** The names of the groups whose deletion a trace requests, in order. *)
Definition deleted (t : list event) : list string :=
  flat_map (fun e => match e with
                     | CallDeleteDBParameterGroup input => [delDBParameterGroupName input]
                     | _ => []
                     end) t.

Definition has_prefix (name : string) : bool := String.prefix pGroupPrefix name.

(** Every deletion requested in the trace is of a name with the prefix. *)
Definition only_prefixed (t : list event) : Prop :=
  List.Forall (fun name => has_prefix name = true) (deleted t).

(** A computation keeps [only_prefixed], however it ends. *)
Definition keeps_prefixed {W A : Type} (m : M W A) : Prop :=
  forall st, only_prefixed (trace st) -> only_prefixed (trace (fst (m st))).

(** ** Instances *)

(** The instance [i'] is [i], but for the memoized family. *)
Definition family_update (i i' : RDSInstance) : Prop :=
  i' = i \/ exists family, i' = set_ParameterGroupFamily i family.

(** ** Responses of the control plane *)

(** Every successful response to the request for the default engine version
    lists at least one version whose family is not nil. *)
Definition some_version_has_family {W} (svc : RDSAPI W) : Prop :=
  forall input w w' out,
    DescribeDBEngineVersions svc input w = (w', (out, None)) ->
    exists info v family,
      out = Some info /\ In (Some v) (DBEngineVersions info) /\
      DBParameterGroupFamily v = Some family.

(** Every successful response to the request for the default engine version
    is not nil and lists, first, a version whose family is not nil. *)
Definition first_version_has_family {W} (svc : RDSAPI W) : Prop :=
  forall input w w' out,
    DescribeDBEngineVersions svc input w = (w', (out, None)) ->
    exists info v family rest,
      out = Some info /\ DBEngineVersions info = Some v :: rest /\
      DBParameterGroupFamily v = Some family.

(** The request that follows a page whose marker is not empty. *)
Definition next_request (input : DescribeEngineDefaultParametersInput)
    (defaults : EngineDefaults) : DescribeEngineDefaultParametersInput :=
  {| edDBParameterGroupFamily := edDBParameterGroupFamily input;
     edMarker := Marker defaults |}.

(** The first request of the lookup, once the family is known. *)
Definition first_request (i : RDSInstance) : DescribeEngineDefaultParametersInput :=
  {| edDBParameterGroupFamily := ParameterGroupFamily i; edMarker := None |}.

(** No parameter of the page has the requested name; every parameter is a
    name with a value, as the control plane lists them. *)
Definition no_match (paramName : string) (params : list (option RdsParameter)) : Prop :=
  Forall (fun param =>
            exists p name, param = Some p /\ ParameterName p = Some name /\
                           name <> paramName) params.

(** A page of names with values. *)
Definition well_formed_page (defaults : EngineDefaults) : Prop :=
  Forall (fun param =>
            exists p name value, param = Some p /\ ParameterName p = Some name /\
                                 ParameterValue p = Some value)
         (edParameters defaults).

(** The names of a page of groups. *)
Definition group_names (pgroups : list (option DBParameterGroup)) : list string :=
  flat_map (fun pgroup => match pgroup with
                          | Some {| DBParameterGroupName := Some name |} => [name]
                          | _ => []
                          end) pgroups.

Definition all_named (pgroups : list (option DBParameterGroup)) : Prop :=
  List.Forall (fun pgroup => exists name,
                 pgroup = Some {| DBParameterGroupName := Some name |}) pgroups.

Section Conditions.

Context {W : Type}.
Variable svc : RDSAPI W.

(** The chain of continuation markers that starts at [input] ends within [n]
    pages: a page has an empty or absent marker, or the exchange stops
    before (a failed request, a response without its page). *)
Fixpoint markers_end (n : nat) (input : DescribeEngineDefaultParametersInput)
    (w : W) : Prop :=
  match n with
  | O => False
  | S n' =>
      match DescribeEngineDefaultParameters svc input w with
      | (w', (Some {| engineDefaults := Some defaults |}, None)) =>
          marker_is_empty (Marker defaults) = true \/
          markers_end n' (next_request input defaults) w'
      | _ => True
      end
  end.

(** The catalogue read from [input] has [k] pages, the last one with an empty
    or absent marker; each is fetched without error and none holds a
    parameter named [paramName]. *)
Fixpoint absent_through (k : nat) (paramName : string)
    (input : DescribeEngineDefaultParametersInput) (w : W) : Prop :=
  match k with
  | O => False
  | S k' =>
      exists w' defaults,
        DescribeEngineDefaultParameters svc input w =
          (w', (Some {| engineDefaults := Some defaults |}, None)) /\
        no_match paramName (edParameters defaults) /\
        match k' with
        | O => marker_is_empty (Marker defaults) = true
        | S _ => marker_is_empty (Marker defaults) = false /\
                 absent_through k' paramName (next_request input defaults) w'
        end
  end.

(** Page [k] of the catalogue read from [input] is the first that holds a
    parameter named [paramName], whose value is [value]; the pages before it
    are fetched without error and announce a further page. *)
Fixpoint found_on_page (k : nat) (paramName value : string)
    (input : DescribeEngineDefaultParametersInput) (w : W) : Prop :=
  match k with
  | O => False
  | S k' =>
      exists w' defaults,
        DescribeEngineDefaultParameters svc input w =
          (w', (Some {| engineDefaults := Some defaults |}, None)) /\
        match k' with
        | O => exists pre p post,
                 edParameters defaults = (pre ++ Some p :: post)%list /\
                 no_match paramName pre /\
                 ParameterName p = Some paramName /\
                 ParameterValue p = Some value
        | S _ => no_match paramName (edParameters defaults) /\
                 marker_is_empty (Marker defaults) = false /\
                 found_on_page k' paramName value (next_request input defaults) w'
        end
  end.

(** Every request that creates, modifies or describes succeeds, with a
    response of the shape the control plane gives. The existence check
    ([DescribeDBParameters]) is left free: its failure is read as "no such
    group" and fails nothing. *)
Record calls_succeed : Prop := {
  create_succeeds :
    forall input w, snd (CreateDBParameterGroup svc input w) = None;
  modify_succeeds :
    forall input w, snd (ModifyDBParameterGroup svc input w) = None;
  engine_versions_succeed :
    forall input w, exists info v family rest,
      snd (DescribeDBEngineVersions svc input w) = (Some info, None) /\
      DBEngineVersions info = Some v :: rest /\
      DBParameterGroupFamily v = Some family;
  engine_defaults_succeed :
    forall input w, exists defaults,
      snd (DescribeEngineDefaultParameters svc input w) =
        (Some {| engineDefaults := Some defaults |}, None) /\
      well_formed_page defaults;
}.

(** Every error of a failed deletion carries a code. *)
Definition delete_errors_coded : Prop :=
  forall input w e,
    snd (DeleteDBParameterGroup svc input w) = Some e ->
    exists code message, e = AwsErr code message.

End Conditions.

Section FailureConditions.

Context {W : Type}.
Variable svc : RDSAPI W.

(** The request for page [k] of the catalogue read from [input] fails with
    [e]; the pages before it are fetched without error, hold no parameter
    named [paramName] and announce a further page. *)
Fixpoint fails_on_page (k : nat) (paramName : string) (e : error)
    (input : DescribeEngineDefaultParametersInput) (w : W) : Prop :=
  match k with
  | O => False
  | S k' =>
      match k' with
      | O => exists w' out,
               DescribeEngineDefaultParameters svc input w = (w', (out, Some e))
      | S _ =>
          exists w' defaults,
            DescribeEngineDefaultParameters svc input w =
              (w', (Some {| engineDefaults := Some defaults |}, None)) /\
            no_match paramName (edParameters defaults) /\
            marker_is_empty (Marker defaults) = false /\
            fails_on_page k' paramName e (next_request input defaults) w'
      end
  end.

(** The listing of the groups that starts at [input] ends within [n]
    requests, whatever the state of the control plane at each of them: a
    request fails, or a page has an empty or absent marker. *)
Fixpoint listing_ends (n : nat) (input : DescribeDBParameterGroupsInput) : Prop :=
  match n with
  | O => False
  | S n' =>
      forall w,
        match DescribeDBParameterGroups svc input w with
        | (_, inr _) => True
        | (_, inl page) =>
            marker_is_empty (dgNextMarker page) = true \/
            listing_ends n' {| dgMarker := dgNextMarker page |}
        end
  end.

(** Every group of every page listed has a name. *)
Definition pages_named : Prop :=
  forall input w w' page,
    DescribeDBParameterGroups svc input w = (w', inl page) ->
    all_named (DBParameterGroups page).

End FailureConditions.

(** ** What an operation asks of the control plane *)

(** Whatever its outcome, the computation only appends to the trace, and
    every event it appends satisfies [P]. *)
Definition emits {W A : Type} (P : event -> Prop) (m : M W A) : Prop :=
  forall st, exists t, trace (fst (m st)) = (trace st ++ t)%list /\ List.Forall P t.

(** The events of the lookup of an engine default for [family]: requests for
    a page of the defaults of that family, in a chain of markers that starts
    with none, and lines of the log. *)
Definition lookup_event (family : string) (e : event) : Prop :=
  match e with
  | CallDescribeEngineDefaultParameters input => edDBParameterGroupFamily input = family
  | Log _ => True
  | _ => False
  end.

(** The events of provisioning the group [groupName] for an instance of the
    engine [engine]: the default version of that engine, the engine defaults,
    and the description, creation and modification of that one group. *)
Definition provisioning_event (engine groupName : string) (e : event) : Prop :=
  match e with
  | CallDescribeDBEngineVersions input =>
      input = {| DefaultOnly := true; Engine := engine |}
  | CallDescribeDBParameters input =>
      input = {| ddpDBParameterGroupName := groupName; ddpMaxRecords := 20;
                 ddpSource := "system" |}
  | CallCreateDBParameterGroup input => cgDBParameterGroupName input = groupName
  | CallModifyDBParameterGroup input => mgDBParameterGroupName input = groupName
  | CallDescribeEngineDefaultParameters _ => True
  | Log _ => True
  | CallDescribeDBParameterGroups _ => False
  | CallDeleteDBParameterGroup _ => False
  end.

(** The request for the default version of [engine]. *)
Definition versions_event (engine : string) (e : event) : Prop :=
  e = CallDescribeDBEngineVersions {| DefaultOnly := true; Engine := engine |}.

Definition is_create_request (e : event) : bool :=
  match e with
  | CallCreateDBParameterGroup _ => true
  | _ => false
  end.

Definition is_modify_request (e : event) : bool :=
  match e with
  | CallModifyDBParameterGroup _ => true
  | _ => false
  end.

(** The events [t] hold no request that modifies a group. *)
Definition no_modify_request (t : list event) : bool :=
  forallb (fun e => negb (is_modify_request e)) t.

(** The events [t] hold no request that creates or modifies a group. *)
Definition no_group_change (t : list event) : bool :=
  forallb (fun e => negb (is_create_request e || is_modify_request e)) t.

(** The events [t] end with the request that applies [parameters] to the
    group [groupName]. *)
Definition applies (groupName : string) (parameters : list (option RdsParameter))
    (t : list event) : Prop :=
  exists t0,
    t = (t0 ++ [CallModifyDBParameterGroup
                  {| mgDBParameterGroupName := groupName;
                     mgParameters := parameters |}])%list.

(** The events of the derivation of the parameters: the default version of
    the engine, pages of engine defaults, lines of the log. *)
Definition derivation_event (e : event) : Prop :=
  match e with
  | CallDescribeDBEngineVersions _ => True
  | CallDescribeEngineDefaultParameters _ => True
  | Log _ => True
  | _ => False
  end.

(** The events of a sweep: listings, deletions and lines of the log. *)
Definition sweep_event (e : event) : Prop :=
  match e with
  | CallDescribeDBParameterGroups _ => True
  | CallDeleteDBParameterGroup _ => True
  | Log _ => True
  | _ => False
  end.

(** ** Test doubles

    Clients used to run the operations on concrete inputs. Their state is
    the number of requests served. *)

Module Doubles.

(** Every request succeeds; every page is empty and is the last one. *)
Definition quiet : RDSAPI nat := {|
  DescribeDBEngineVersions := fun _ w =>
    (S w, (Some {| DBEngineVersions :=
                     [Some {| DBParameterGroupFamily := Some "postgres15" |}] |}, None));
  DescribeDBParameters := fun _ w => (S w, None);
  CreateDBParameterGroup := fun _ w => (S w, None);
  ModifyDBParameterGroup := fun _ w => (S w, None);
  DescribeEngineDefaultParameters := fun _ w =>
    (S w, (Some {| engineDefaults :=
                     Some {| Marker := None; edParameters := [] |} |}, None));
  DescribeDBParameterGroups := fun _ w =>
    (S w, inl {| DBParameterGroups := []; dgNextMarker := None |});
  DeleteDBParameterGroup := fun _ w => (S w, None);
|}.

Definition start : state nat := {| world := 0; trace := [] |}.

Definition with_engine_versions
    (response : option DescribeDBEngineVersionsOutput * option error) : RDSAPI nat := {|
  DescribeDBEngineVersions := fun _ w => (S w, response);
  DescribeDBParameters := DescribeDBParameters quiet;
  CreateDBParameterGroup := CreateDBParameterGroup quiet;
  ModifyDBParameterGroup := ModifyDBParameterGroup quiet;
  DescribeEngineDefaultParameters := DescribeEngineDefaultParameters quiet;
  DescribeDBParameterGroups := DescribeDBParameterGroups quiet;
  DeleteDBParameterGroup := DeleteDBParameterGroup quiet;
|}.

(** The default engine version is listed second; the first entry has no
    family. *)
Definition family_on_second : RDSAPI nat :=
  with_engine_versions
    (Some {| DBEngineVersions :=
               [Some {| DBParameterGroupFamily := None |};
                Some {| DBParameterGroupFamily := Some "mysql8.0" |}] |}, None).

(** A successful response that lists no version. *)
Definition no_versions : RDSAPI nat :=
  with_engine_versions (Some {| DBEngineVersions := [] |}, None).

(** The request for the default engine version fails. *)
Definition versions_fail : RDSAPI nat :=
  with_engine_versions (None, Some (AwsErr "AccessDenied" "not authorized")).

Definition with_engine_defaults
    (respond : DescribeEngineDefaultParametersInput ->
               option DescribeEngineDefaultParametersOutput * option error)
    : RDSAPI nat := {|
  DescribeDBEngineVersions := DescribeDBEngineVersions quiet;
  DescribeDBParameters := DescribeDBParameters quiet;
  CreateDBParameterGroup := CreateDBParameterGroup quiet;
  ModifyDBParameterGroup := ModifyDBParameterGroup quiet;
  DescribeEngineDefaultParameters := fun input w => (S w, respond input);
  DescribeDBParameterGroups := DescribeDBParameterGroups quiet;
  DeleteDBParameterGroup := DeleteDBParameterGroup quiet;
|}.

(** Every page of the catalogue is empty and announces a further page. *)
Definition endless : RDSAPI nat :=
  with_engine_defaults (fun _ =>
    (Some {| engineDefaults :=
               Some {| Marker := Some "more"; edParameters := [] |} |}, None)).

Definition named (name value : string) : option RdsParameter :=
  Some {| ApplyMethod := None; ParameterName := Some name;
          ParameterValue := Some value |}.

(** A catalogue of two pages: the first ends with the marker "page2", the
    second is the last. *)
Definition two_pages : RDSAPI nat :=
  with_engine_defaults (fun input =>
    match edMarker input with
    | None =>
        (Some {| engineDefaults :=
                   Some {| Marker := Some "page2";
                           edParameters := [named "max_connections" "100";
                                            named "autovacuum" "1"] |} |}, None)
    | Some _ =>
        (Some {| engineDefaults :=
                   Some {| Marker := None;
                           edParameters :=
                             [named "work_mem" "4096";
                              named "shared_preload_libraries" "pg_stat_statements";
                              named "wal_level" "replica"] |} |}, None)
    end).

Definition group (name : string) : option DBParameterGroup :=
  Some {| DBParameterGroupName := Some name |}.

(** A control plane with the listing [pages] (by marker) and the deletion
    [delete] (by name). *)
Definition with_groups
    (pages : option string -> DescribeDBParameterGroupsOutput + error)
    (delete : string -> option error) : RDSAPI nat := {|
  DescribeDBEngineVersions := DescribeDBEngineVersions quiet;
  DescribeDBParameters := DescribeDBParameters quiet;
  CreateDBParameterGroup := CreateDBParameterGroup quiet;
  ModifyDBParameterGroup := ModifyDBParameterGroup quiet;
  DescribeEngineDefaultParameters := DescribeEngineDefaultParameters quiet;
  DescribeDBParameterGroups := fun input w => (S w, pages (dgMarker input));
  DeleteDBParameterGroup := fun input w => (S w, delete (delDBParameterGroupName input));
|}.

(** Two pages of groups: two of the broker's and a default group on the
    first, one of the broker's on the second. *)
Definition group_pages (marker : option string)
    : DescribeDBParameterGroupsOutput + error :=
  match marker with
  | None =>
      inl {| DBParameterGroups := [group "cg-aws-broker-a"; group "default.mysql8.0";
                                   group "cg-aws-broker-b"];
             dgNextMarker := Some "page2" |}
  | Some _ =>
      inl {| DBParameterGroups := [group "cg-aws-broker-c"]; dgNextMarker := None |}
  end.

(** The first group is attached to an instance, the second cannot be
    deleted for another reason the control plane names. *)
Definition coded_failures : RDSAPI nat :=
  with_groups group_pages (fun name =>
    if String.eqb name "cg-aws-broker-a"
    then Some (AwsErr "InvalidDBParameterGroupState" "group is in use")
    else if String.eqb name "cg-aws-broker-b"
    then Some (AwsErr "AccessDenied" "not authorized")
    else None).

(** The deletion fails with an error that has no code (an [errors.New]). *)
Definition uncoded_failure : RDSAPI nat :=
  with_groups group_pages (fun _ => Some (PlainErr "fail")).

End Doubles.

(** ** Test doubles that fail *)

Module Faults.

(** The group does not exist and may not be created. *)
Definition create_denied : RDSAPI nat := {|
  DescribeDBEngineVersions := DescribeDBEngineVersions Doubles.quiet;
  DescribeDBParameters := fun _ w =>
    (S w, Some (AwsErr "DBParameterGroupNotFound" "no such group"));
  CreateDBParameterGroup := fun _ w =>
    (S w, Some (AwsErr "AccessDenied" "not authorized"));
  ModifyDBParameterGroup := ModifyDBParameterGroup Doubles.quiet;
  DescribeEngineDefaultParameters := DescribeEngineDefaultParameters Doubles.quiet;
  DescribeDBParameterGroups := DescribeDBParameterGroups Doubles.quiet;
  DeleteDBParameterGroup := DeleteDBParameterGroup Doubles.quiet;
|}.

(** The first page of the catalogue of engine defaults is served, the
    request for the second is throttled. *)
Definition second_page_throttled : RDSAPI nat :=
  Doubles.with_engine_defaults (fun input =>
    match edMarker input with
    | None =>
        (Some {| engineDefaults :=
                   Some {| Marker := Some "page2";
                           edParameters := [Doubles.named "max_connections" "100"] |} |},
         None)
    | Some _ => (None, Some (AwsErr "Throttling" "rate exceeded"))
    end).

(** The catalogue lists a parameter without a name. *)
Definition nameless_parameter : RDSAPI nat :=
  Doubles.with_engine_defaults (fun _ =>
    (Some {| engineDefaults :=
               Some {| Marker := None;
                       edParameters :=
                         [Doubles.named "max_connections" "100";
                          Some {| ApplyMethod := None; ParameterName := None;
                                  ParameterValue := Some "1" |};
                          Doubles.named "shared_preload_libraries" "x"] |} |}, None)).

(** The listing of the groups fails. *)
Definition listing_denied : RDSAPI nat :=
  Doubles.with_groups (fun _ => inr (AwsErr "AccessDenied" "not authorized"))
                      (fun _ => None).

End Faults.

(** ** Inputs of the examples *)

Definition instance_of (dbType binlog : string) (functions pgcron : bool) : RDSInstance :=
  {| Database := ""; DbType := dbType; DbVersion := ""; AllocatedStorage := 0;
     BackupRetentionPeriod := 0; BinaryLogFormat := binlog;
     EnableFunctions := functions; EnablePgCron := pgcron;
     ParameterGroupFamily := "" |}.

Definition options_storage (n : Z) : Options :=
  {| optAllocatedStorage := n; optBackupRetentionPeriod := 0;
     optBinaryLogFormat := ""; optEnablePgCron := None |}.

(** A postgres instance pinned to version 12.5, with pg-cron. *)
Definition pinned : RDSInstance :=
  set_DbVersion (instance_of "postgres" "" false true) "12.5".

Definition pinned_resolved : RDSInstance :=
  set_ParameterGroupFamily pinned "postgres12.5".

(** The pinned postgres instance, for the database "orders". *)
Definition orders : RDSInstance :=
  {| Database := "orders"; DbType := "postgres"; DbVersion := "12.5";
     AllocatedStorage := 10; BackupRetentionPeriod := 0; BinaryLogFormat := "";
     EnableFunctions := false; EnablePgCron := true; ParameterGroupFamily := "" |}.

Definition no_options : Options :=
  {| optAllocatedStorage := 0; optBackupRetentionPeriod := 0;
     optBinaryLogFormat := ""; optEnablePgCron := None |}.

Definition no_plan : RDSPlan := {| planDbVersion := "" |}.
Definition no_settings : Settings := {| EnableFunctionsFeature := false |}.

(** A mysql instance pinned to version 8.0.28, with a binary log format, for
    the database "db1". *)
Definition db1 : RDSInstance :=
  {| Database := "db1"; DbType := "mysql"; DbVersion := "8.0.28";
     AllocatedStorage := 10; BackupRetentionPeriod := 0; BinaryLogFormat := "ROW";
     EnableFunctions := false; EnablePgCron := false; ParameterGroupFamily := "" |}.

(** The state in which provisioning the group of [orders] leaves the
    two-page double. *)
Definition orders_provisioned : state nat :=
  {| world := 4;
     trace :=
       [CallDescribeEngineDefaultParameters
          {| edDBParameterGroupFamily := "postgres12.5"; edMarker := None |};
        CallDescribeEngineDefaultParameters
          {| edDBParameterGroupFamily := "postgres12.5"; edMarker := Some "page2" |};
        Log "found default parameter value pg_stat_statements for parameter shared_preload_libraries";
        CallDescribeDBParameters
          {| ddpDBParameterGroupName := "cg-aws-broker-orders"; ddpMaxRecords := 20;
             ddpSource := "system" |};
        Log "cg-aws-broker-orders parameter group already exists";
        CallModifyDBParameterGroup
          {| mgDBParameterGroupName := "cg-aws-broker-orders";
             mgParameters :=
               [Some {| ApplyMethod := Some "immediate";
                        ParameterName := Some "shared_preload_libraries";
                        ParameterValue := Some "pg_cron,pg_stat_statements" |}] |}] |}.

(** The state in which the denied creation of the group of [db1] ends. *)
Definition db1_create_denied : state nat :=
  {| world := 2;
     trace :=
       [CallDescribeDBParameters
          {| ddpDBParameterGroupName := "cg-aws-broker-db1"; ddpMaxRecords := 20;
             ddpSource := "system" |};
        Log "creating a parameter group named cg-aws-broker-db1 in the family of mysql8.0";
        CallCreateDBParameterGroup
          {| cgDBParameterGroupFamily := "mysql8.0";
             cgDBParameterGroupName := "cg-aws-broker-db1";
             cgDescription := "aws broker parameter group for db1" |}] |}.

(** * Properties *)

(** A page, given explicitly, holds no parameter of the requested name. *)
Ltac solve_no_match :=
  repeat first
    [ apply List.Forall_nil
    | apply List.Forall_cons;
      [ eexists _, _; split; [reflexivity|]; split; [reflexivity | discriminate] | ] ].

(** ** Strings *)

Lemma append_empty_r (s : string) : s +:+ "" = s.
Proof. induction s as [|c s IH]; simpl; [reflexivity | now rewrite IH]. Qed.

Lemma span_append (p : ascii -> bool) (a b : string) :
  all_bytes p a = true -> stops p b = true -> span p (a +:+ b) = (a, b).
Proof.
  induction a as [|c a IH]; simpl; intros Ha Hb.
  - destruct b as [|c b]; simpl in *; [reflexivity|].
    apply negb_true_iff in Hb. now rewrite Hb.
  - apply andb_true_iff in Ha as [Hc Ha]. rewrite Hc, (IH Ha Hb). reflexivity.
Qed.

Lemma span_prefix (p : ascii -> bool) (s : string) :
  all_bytes p (fst (span p s)) = true /\ stops p (snd (span p s)) = true /\
  fst (span p s) +:+ snd (span p s) = s.
Proof.
  induction s as [|c s IH]; simpl; [auto|].
  destruct (p c) eqn:Hc.
  - destruct (span p s) as [a b]; simpl in *.
    destruct IH as (Ha & Hb & Hs). rewrite Hc, Ha, Hs. auto.
  - simpl. rewrite Hc. auto.
Qed.

Lemma digit_is_not_dot (c : ascii) : is_digit c = true -> is_dot c = false.
Proof.
  unfold is_dot. destruct (Ascii.eqb_spec c ".") as [->|]; [|reflexivity].
  vm_compute. discriminate.
Qed.

(** A version that is a major number alone, followed by something that is
    neither a digit nor a dot: the token is the major number. *)
Lemma version_token_major (major rest : string) :
  major <> "" -> all_bytes is_digit major = true ->
  stops is_digit rest = true -> stops is_dot rest = true ->
  version_token (major +:+ rest) = major.
Proof.
  intros Hne Hmajor Hd Hdot. unfold version_token, re_version_Find.
  rewrite (span_append _ _ _ Hmajor Hd).
  destruct major as [|c major]; [congruence|].
  change rest with ("" +:+ rest) at 1.
  rewrite (span_append is_dot "" rest eq_refl Hdot).
  change rest with ("" +:+ rest).
  rewrite (span_append is_digit "" rest eq_refl Hd).
  simpl. f_equal. apply append_empty_r.
Qed.

(** A version [major.minor] followed by something that is not a digit: the
    token is [major.minor]. *)
Lemma version_token_major_minor (major minor rest : string) :
  major <> "" -> all_bytes is_digit major = true ->
  minor <> "" -> all_bytes is_digit minor = true ->
  stops is_digit rest = true ->
  version_token (major +:+ "." +:+ minor +:+ rest) = major +:+ "." +:+ minor.
Proof.
  intros Hne Hmajor Hne' Hminor Hd. unfold version_token, re_version_Find.
  rewrite (span_append is_digit major ("." +:+ minor +:+ rest) Hmajor eq_refl).
  destruct major as [|c major]; [congruence|].
  assert (Hstop : stops is_dot (minor +:+ rest) = true).
  { destruct minor as [|d minor]; [congruence|]. simpl in *.
    apply andb_true_iff in Hminor as [Hdig _].
    now rewrite (digit_is_not_dot _ Hdig). }
  rewrite (span_append is_dot "." (minor +:+ rest) eq_refl Hstop).
  rewrite (span_append is_digit minor rest Hminor Hd).
  reflexivity.
Qed.


(** ** The Diff/Merge engine *)


(** The flag is flipped from [true] to [false]. *)
Example modify_pg_cron_true_to_false :
  EnablePgCron
    (fst (modify (set_EnablePgCron emptyInstance true)
            {| optAllocatedStorage := 0; optBackupRetentionPeriod := 0;
               optBinaryLogFormat := ""; optEnablePgCron := Some false |}
            {| planDbVersion := "" |} {| EnableFunctionsFeature := false |}))
  = false.
Proof. reflexivity. Qed.

(** C4. The allocated-storage policy of [modify], its cases read in order:
    an option of 0 leaves the instance's storage; otherwise an option below
    the current storage fails with the validation error and leaves the
    storage; otherwise the storage becomes exactly the option. *)
Theorem modify_allocated_storage (i : RDSInstance) (options : Options)
    (plan : RDSPlan) (settings : Settings) :
  let r := modify i options plan settings in
  (optAllocatedStorage options = 0%Z ->
     AllocatedStorage (fst r) = AllocatedStorage i /\ snd r = None) /\
  (optAllocatedStorage options <> 0%Z ->
   (optAllocatedStorage options < AllocatedStorage i)%Z ->
     snd r = Some storageDecreaseError /\
     AllocatedStorage (fst r) = AllocatedStorage i) /\
  (optAllocatedStorage options <> 0%Z ->
   ~ (optAllocatedStorage options < AllocatedStorage i)%Z ->
     snd r = None /\ AllocatedStorage (fst r) = optAllocatedStorage options).
Proof.
  cbv zeta. unfold modify.
  destruct (Z.eqb_spec (optAllocatedStorage options) 0) as [H0|H0];
    [|destruct (Z.ltb_spec (optAllocatedStorage options) (AllocatedStorage i)) as [Hlt|Hge]];
    destruct (optBackupRetentionPeriod options =? 0)%Z;
    destruct (String.eqb (optBinaryLogFormat options) "");
    destruct (optEnablePgCron options);
    destruct (String.eqb (planDbVersion plan) ""); simpl;
    repeat split; intros; try reflexivity; try congruence; try lia.
Qed.

(** The three storage cases of [TestModifyInstance], through the theorem. *)
Lemma modify_allocated_storage_witness :
  (let r := modify (set_AllocatedStorage emptyInstance 20) (options_storage 0)
              {| planDbVersion := "" |} {| EnableFunctionsFeature := false |} in
   AllocatedStorage (fst r) = 20%Z /\ snd r = None) /\
  (let r := modify (set_AllocatedStorage emptyInstance 20) (options_storage 10)
              {| planDbVersion := "" |} {| EnableFunctionsFeature := false |} in
   snd r = Some storageDecreaseError /\ AllocatedStorage (fst r) = 20%Z) /\
  (let r := modify (set_AllocatedStorage emptyInstance 10) (options_storage 20)
              {| planDbVersion := "" |} {| EnableFunctionsFeature := false |} in
   snd r = None /\ AllocatedStorage (fst r) = 20%Z).
Proof.
  split; [|split].
  - apply (proj1 (modify_allocated_storage (set_AllocatedStorage emptyInstance 20)
                    (options_storage 0) {| planDbVersion := "" |}
                    {| EnableFunctionsFeature := false |})).
    reflexivity.
  - apply (proj1 (proj2 (modify_allocated_storage (set_AllocatedStorage emptyInstance 20)
                    (options_storage 10) {| planDbVersion := "" |}
                    {| EnableFunctionsFeature := false |}))).
    + simpl. lia.
    + simpl. lia.
  - apply (proj2 (proj2 (modify_allocated_storage (set_AllocatedStorage emptyInstance 10)
                    (options_storage 20) {| planDbVersion := "" |}
                    {| EnableFunctionsFeature := false |}))).
    + simpl. lia.
    + simpl. lia.
Defined.

(** ** [needCustomParameters] *)

(** C3. [needCustomParameters] is true exactly when the engine is mysql
    and functions are enabled on the instance and in the settings, or the
    engine is mysql and the binary log format is set, or the engine is
    postgres and pg-cron is enabled; for any engine other than mysql and
    postgres it is false. *)
Theorem needCustomParameters_iff (i : RDSInstance) (s : Settings) :
  (needCustomParameters i s = true <->
     (DbType i = "mysql" /\ EnableFunctions i = true /\ EnableFunctionsFeature s = true) \/
     (DbType i = "mysql" /\ BinaryLogFormat i <> "") \/
     (DbType i = "postgres" /\ EnablePgCron i = true)) /\
  (DbType i <> "mysql" -> DbType i <> "postgres" -> needCustomParameters i s = false).
Proof.
  unfold needCustomParameters.
  destruct (String.eqb_spec (DbType i) "mysql") as [Hm|Hm];
    destruct (String.eqb_spec (DbType i) "postgres") as [Hp|Hp];
    destruct (String.eqb_spec (BinaryLogFormat i) "") as [Hb|Hb];
    destruct (EnableFunctions i), (EnableFunctionsFeature s), (EnablePgCron i);
    simpl; (split; [split|]); intros; try reflexivity; try congruence; try tauto;
    try (rewrite Hm in Hp; discriminate);
    intuition congruence.
Qed.

(** The table of [TestNeedCustomParameters]. *)
Example TestNeedCustomParameters :
  needCustomParameters emptyInstance {| EnableFunctionsFeature := false |} = false /\
  needCustomParameters (instance_of "mysql" "ROW" false false)
    {| EnableFunctionsFeature := false |} = true /\
  needCustomParameters (instance_of "psql" "ROW" false false)
    {| EnableFunctionsFeature := false |} = false /\
  needCustomParameters (instance_of "mysql" "" true false)
    {| EnableFunctionsFeature := false |} = false /\
  needCustomParameters (instance_of "mysql" "" false false)
    {| EnableFunctionsFeature := true |} = false /\
  needCustomParameters (instance_of "psql" "" true false)
    {| EnableFunctionsFeature := true |} = false /\
  needCustomParameters (instance_of "mysql" "" true false)
    {| EnableFunctionsFeature := true |} = true.
Proof. repeat split. Qed.

(** Both directions and the last clause of the theorem, on rows of the
    table and on a postgres instance with pg-cron. *)
Lemma needCustomParameters_iff_witness :
  needCustomParameters (instance_of "mysql" "ROW" false false)
    {| EnableFunctionsFeature := false |} = true /\
  needCustomParameters (instance_of "postgres" "" false true)
    {| EnableFunctionsFeature := false |} = true /\
  needCustomParameters (instance_of "psql" "ROW" true true)
    {| EnableFunctionsFeature := true |} = false.
Proof.
  split; [|split].
  - apply (proj1 (needCustomParameters_iff (instance_of "mysql" "ROW" false false)
                    {| EnableFunctionsFeature := false |})).
    right. left. simpl. split; [reflexivity | discriminate].
  - apply (proj1 (needCustomParameters_iff (instance_of "postgres" "" false true)
                    {| EnableFunctionsFeature := false |})).
    right. right. simpl. split; reflexivity.
  - apply (proj2 (needCustomParameters_iff (instance_of "psql" "ROW" true true)
                    {| EnableFunctionsFeature := true |})).
    + simpl. discriminate.
    + simpl. discriminate.
Defined.

(** ** [getCustomParameters] *)

Section CustomParameters.

Context {W : Type}.
Variable svc : RDSAPI W.

Lemma getCustomParameters_mysql (fuel : nat) (i : RDSInstance) (s : Settings)
    (st : state W) :
  DbType i = "mysql" ->
  getCustomParameters svc fuel i s st = (st, Done (i, (mysqlParameters i s ∅, None))).
Proof.
  intros H. unfold getCustomParameters. rewrite H. reflexivity.
Qed.

Lemma mysqlParameters_lookup (i : RDSInstance) (s : Settings) :
  mysqlParameters i s ∅ !! "mysql" =
    Some (let flag : string :=
            if EnableFunctions i && EnableFunctionsFeature s then "1" else "0" in
          let params : gmap string string :=
            {[ "log_bin_trust_function_creators" := flag ]} in
          if String.eqb (BinaryLogFormat i) "" then params
          else <["binlog_format" := BinaryLogFormat i]> params).
Proof.
  unfold mysqlParameters, set_param.
  destruct (EnableFunctions i && EnableFunctionsFeature s);
    destruct (String.eqb (BinaryLogFormat i) ""); simpl;
    repeat (rewrite lookup_alter_eq || rewrite lookup_insert_eq); reflexivity.
Qed.

(** C6. For a mysql instance and any settings, the derived set holds
    [log_bin_trust_function_creators], with value "1" when functions are
    enabled on the instance and in the settings and "0" otherwise (it is
    there also when both are off); it holds [binlog_format] with the
    instance's format when that is not empty. No request is made and the
    instance is not written. *)
Theorem getCustomParameters_mysql_flags (fuel : nat) (i : RDSInstance) (s : Settings)
    (st : state W) :
  DbType i = "mysql" ->
  exists (m : gmap string (gmap string string)) (params : gmap string string),
    getCustomParameters svc fuel i s st = (st, Done (i, (m, None))) /\
    m !! "mysql" = Some params /\
    params !! "log_bin_trust_function_creators" =
      Some (if EnableFunctions i && EnableFunctionsFeature s then "1" else "0") /\
    (BinaryLogFormat i <> "" -> params !! "binlog_format" = Some (BinaryLogFormat i)) /\
    (BinaryLogFormat i = "" -> params !! "binlog_format" = None).
Proof.
  intros H. eexists _, _. split; [exact (getCustomParameters_mysql fuel i s st H)|].
  split; [apply mysqlParameters_lookup|]. cbv zeta.
  destruct (String.eqb_spec (BinaryLogFormat i) "") as [Hb|Hb].
  - split; [apply lookup_singleton_eq|]. split; [congruence|].
    intros _. apply lookup_singleton_ne. discriminate.
  - split; [rewrite lookup_insert_ne by discriminate; apply lookup_singleton_eq|].
    split; [intros _; apply lookup_insert_eq | congruence].
Qed.

End CustomParameters.

(** The rows of [TestGetCustomParameters], with the engine type set to
    mysql. *)
Example TestGetCustomParameters_enabled_functions :
  getCustomParameters Doubles.quiet 0 (instance_of "mysql" "" true false)
    {| EnableFunctionsFeature := true |} Doubles.start =
  (Doubles.start,
   Done (instance_of "mysql" "" true false,
         ({[ "mysql" := {[ "log_bin_trust_function_creators" := "1" ]} ]}, None))).
Proof. reflexivity. Qed.

Example TestGetCustomParameters_instance_disabled :
  getCustomParameters Doubles.quiet 0 (instance_of "mysql" "" false false)
    {| EnableFunctionsFeature := true |} Doubles.start =
  (Doubles.start,
   Done (instance_of "mysql" "" false false,
         ({[ "mysql" := {[ "log_bin_trust_function_creators" := "0" ]} ]}, None))).
Proof. reflexivity. Qed.

Example TestGetCustomParameters_settings_disabled :
  getCustomParameters Doubles.quiet 0 (instance_of "mysql" "" true false)
    {| EnableFunctionsFeature := false |} Doubles.start =
  (Doubles.start,
   Done (instance_of "mysql" "" true false,
         ({[ "mysql" := {[ "log_bin_trust_function_creators" := "0" ]} ]}, None))).
Proof. reflexivity. Qed.

Example TestGetCustomParameters_binary_log_format :
  getCustomParameters Doubles.quiet 0 (instance_of "mysql" "ROW" false false)
    {| EnableFunctionsFeature := false |} Doubles.start =
  (Doubles.start,
   Done (instance_of "mysql" "ROW" false false,
         ({[ "mysql" := {[ "log_bin_trust_function_creators" := "0";
                           "binlog_format" := "ROW" ]} ]}, None))).
Proof. reflexivity. Qed.

Lemma getCustomParameters_mysql_flags_witness :
  exists (m : gmap string (gmap string string)) (params : gmap string string),
    getCustomParameters Doubles.quiet 0 (instance_of "mysql" "ROW" false false)
      {| EnableFunctionsFeature := false |} Doubles.start =
      (Doubles.start, Done (instance_of "mysql" "ROW" false false, (m, None))) /\
    m !! "mysql" = Some params /\
    params !! "log_bin_trust_function_creators" = Some "0" /\
    ("ROW" <> "" -> params !! "binlog_format" = Some "ROW") /\
    ("ROW" = "" -> params !! "binlog_format" = None).
Proof.
  apply (getCustomParameters_mysql_flags Doubles.quiet 0
           (instance_of "mysql" "ROW" false false)
           {| EnableFunctionsFeature := false |} Doubles.start).
  reflexivity.
Defined.

(** ** The family resolver *)

Section FamilyResolver.

Context {W : Type}.
Variable svc : RDSAPI W.

Lemma getParameterGroupFamily_memoized (i : RDSInstance) (st : state W) :
  ParameterGroupFamily i <> "" ->
  getParameterGroupFamily svc i st = (st, Done (i, None)).
Proof.
  intros H. unfold getParameterGroupFamily.
  destruct (String.eqb_spec (ParameterGroupFamily i) ""); [congruence | reflexivity].
Qed.

Lemma getParameterGroupFamily_versioned (i : RDSInstance) (st : state W) :
  ParameterGroupFamily i = "" -> DbVersion i <> "" ->
  getParameterGroupFamily svc i st =
    (st, Done (set_ParameterGroupFamily i (DbType i +:+ version_token (DbVersion i)),
               None)).
Proof.
  intros Hf Hv. unfold getParameterGroupFamily. rewrite Hf. simpl.
  destruct (String.eqb_spec (DbVersion i) ""); [congruence | reflexivity].
Qed.


End FamilyResolver.

Example version_token_examples :
  version_token "12" = "12" /\ version_token "12.5" = "12.5" /\
  version_token "8.0.28" = "8.0" /\ version_token "5.7.mysql_aurora.2.07.2" = "5.7" /\
  version_token "12." = "12." /\ version_token "v12" = "".
Proof. repeat split. Qed.


(** *** The default engine version *)

Lemma getParameterGroupFamily_returns {W} (svc : RDSAPI W) (i : RDSInstance)
    (st : state W) :
  first_version_has_family svc ->
  exists st' i' err, getParameterGroupFamily svc i st = (st', Done (i', err)) /\
    (i' = i \/ exists family, i' = set_ParameterGroupFamily i family).
Proof.
  intros Hsvc. unfold getParameterGroupFamily.
  destruct (String.eqb (ParameterGroupFamily i) ""); simpl; [|eauto 6].
  destruct (String.eqb (DbVersion i) ""); [|eauto 7].
  unfold bind, call.
  destruct (DescribeDBEngineVersions svc _ (world st)) as [w' [out [e|]]] eqn:Hcall;
    [eauto 6|].
  destruct (Hsvc _ _ _ _ Hcall) as (info & v & family & rest & -> & Hl & Hf).
  simpl. rewrite Hl. simpl. rewrite Hf. simpl. eauto 7.
Qed.

(** C10, as the code has it. With no engine version on the instance, the
    resolver reads the first version of the response without a check. Under
    the hypothesis that every successful response is not nil and lists first
    a version with a family, the resolver always returns (the instance as it
    was with an error, or with its family set); without the hypothesis it
    faults: on a response with no version by an index out of range, on a
    first version without a family by a nil dereference, where it returns no
    error. *)
Theorem getParameterGroupFamily_default_version_safe :
  (forall W (svc : RDSAPI W), first_version_has_family svc ->
     forall (i : RDSInstance) (st : state W),
     exists st' i' err, getParameterGroupFamily svc i st = (st', Done (i', err))) /\
  snd (getParameterGroupFamily Doubles.no_versions emptyInstance Doubles.start) =
    Panicked IndexOutOfRange /\
  snd (getParameterGroupFamily Doubles.family_on_second emptyInstance Doubles.start) =
    Panicked NilDereference /\
  snd (getParameterGroupFamily Doubles.versions_fail emptyInstance Doubles.start) =
    Done (emptyInstance, Some (AwsErr "AccessDenied" "not authorized")).
Proof.
  split; [|repeat split].
  intros W svc Hsvc i st.
  destruct (getParameterGroupFamily_returns svc i st Hsvc) as (st' & i' & err & H & _).
  eauto.
Qed.

Lemma quiet_first_version_has_family : first_version_has_family Doubles.quiet.
Proof.
  intros input w w' out H. simpl in H. inversion H; subst.
  eexists _, _, _, _. repeat split.
Defined.

Lemma getParameterGroupFamily_default_version_safe_witness :
  exists st' i' err,
    getParameterGroupFamily Doubles.quiet (instance_of "postgres" "" false true)
      Doubles.start = (st', Done (i', err)).
Proof.
  apply (proj1 getParameterGroupFamily_default_version_safe nat Doubles.quiet
           quiet_first_version_has_family).
Defined.

(** The family of the default engine version is taken verbatim. *)
Example getParameterGroupFamily_default_version :
  getParameterGroupFamily Doubles.quiet (instance_of "postgres" "" false true)
    Doubles.start =
  ({| world := 1;
      trace := [CallDescribeDBEngineVersions
                  {| DefaultOnly := true; Engine := "postgres" |}] |},
   Done (set_ParameterGroupFamily (instance_of "postgres" "" false true) "postgres15",
         None)).
Proof. reflexivity. Qed.

(** C10, as it is stated, fails: the client below answers every request for
    the default engine version with a list that holds a version with a
    family, in second place, and the resolver faults on the first. *)
Lemma some_version_with_family_is_not_enough :
  some_version_has_family Doubles.family_on_second /\
  getParameterGroupFamily Doubles.family_on_second emptyInstance Doubles.start =
    ({| world := 1;
        trace := [CallDescribeDBEngineVersions
                    {| DefaultOnly := true; Engine := "" |}] |},
     Panicked NilDereference).
Proof.
  split; [|reflexivity].
  intros input w w' out H. simpl in H. inversion H; subst.
  eexists _, {| DBParameterGroupFamily := Some "mysql8.0" |}, _.
  split; [reflexivity|]. split; [|reflexivity]. simpl. auto.
Qed.

(** ** The default-parameter lookup *)

Lemma page_requests_app (a b : list event) :
  page_requests (a ++ b) = page_requests a + page_requests b.
Proof. unfold page_requests. now rewrite List.filter_app, List.length_app. Qed.

Section Lookup.

Context {W : Type}.
Variable svc : RDSAPI W.

(** The scan of a page only writes to the log. *)
Lemma scanParameters_frame (paramName : string) (params : list (option RdsParameter))
    (st : state W) :
  world (fst (scanParameters paramName params st)) = world st /\
  page_requests (trace (fst (scanParameters paramName params st))) =
    page_requests (trace st) /\
  snd (scanParameters paramName params st) <> OutOfFuel.
Proof.
  induction params as [|[p|] rest IH]; simpl; [now auto | | now auto].
  unfold bind; simpl. destruct (ParameterName p) as [name|]; simpl; [|now auto].
  destruct (String.eqb name paramName); [|exact IH].
  destruct (ParameterValue p) as [value|]; simpl; [|now auto].
  rewrite page_requests_app. split; [reflexivity|].
  split; [unfold page_requests; simpl; lia | discriminate].
Qed.

Lemma scanParameters_no_match (paramName : string) (params : list (option RdsParameter))
    (st : state W) :
  no_match paramName params -> scanParameters paramName params st = (st, Done None).
Proof.
  induction 1 as [|param rest (p & name & -> & Hname & Hne) _ IH]; simpl; [reflexivity|].
  unfold bind; simpl. rewrite Hname; simpl.
  destruct (String.eqb_spec name paramName); [congruence | exact IH].
Qed.

Lemma scanParameters_match (paramName value : string) (p : RdsParameter)
    (pre post : list (option RdsParameter)) (st : state W) :
  no_match paramName pre -> ParameterName p = Some paramName ->
  ParameterValue p = Some value ->
  scanParameters paramName (pre ++ Some p :: post) st =
    ({| world := world st;
        trace := trace st ++
                 [Log ("found default parameter value " +:+ value +:+
                       " for parameter " +:+ paramName)] |},
     Done (Some value)).
Proof.
  intros Hpre Hname Hvalue.
  induction Hpre as [|param rest (q & name & -> & Hq & Hne) _ IH]; simpl.
  - unfold bind; simpl. rewrite Hname; simpl. rewrite String.eqb_refl, Hvalue.
    reflexivity.
  - unfold bind; simpl. rewrite Hq; simpl.
    destruct (String.eqb_spec name paramName); [congruence | exact IH].
Qed.

(** One iteration of the loop, by the response to its request. *)
Lemma engineDefaultsLoop_step (fuel : nat) (paramName : string)
    (input : DescribeEngineDefaultParametersInput) (st : state W) :
  engineDefaultsLoop svc (S fuel) paramName input st =
    let '(w', (result, err)) := DescribeEngineDefaultParameters svc input (world st) in
    let st1 := {| world := w';
                  trace := trace st ++ [CallDescribeEngineDefaultParameters input] |} in
    match err with
    | Some e => (st1, Done ("", Some e))
    | None =>
        match result with
        | None => (st1, Panicked NilDereference)
        | Some res =>
            match engineDefaults res with
            | None => (st1, Panicked NilDereference)
            | Some defaults =>
                match scanParameters paramName (edParameters defaults) st1 with
                | (st2, Done (Some value)) => (st2, Done (value, None))
                | (st2, Done None) =>
                    if marker_is_empty (Marker defaults) then (st2, Done ("", None))
                    else engineDefaultsLoop svc fuel paramName
                           (next_request input defaults) st2
                | (st2, Panicked p) => (st2, Panicked p)
                | (st2, OutOfFuel) => (st2, OutOfFuel)
                end
            end
        end
    end.
Proof.
  simpl. unfold bind, call.
  destruct (DescribeEngineDefaultParameters svc input (world st))
    as [w' [[res|] [e|]]]; simpl; try reflexivity.
  destruct (engineDefaults res) as [defaults|]; simpl; [|reflexivity].
  destruct (scanParameters paramName (edParameters defaults) _)
    as [st2 [[value|]| |]]; simpl; try reflexivity.
  destruct (marker_is_empty (Marker defaults)); reflexivity.
Qed.

Lemma engineDefaultsLoop_terminates (n : nat) :
  forall (fuel : nat) (paramName : string)
         (input : DescribeEngineDefaultParametersInput) (st : state W),
    markers_end svc n input (world st) -> n <= fuel ->
    snd (engineDefaultsLoop svc fuel paramName input st) <> OutOfFuel.
Proof.
  induction n as [|n IH]; intros fuel paramName input st Hend Hfuel; [destruct Hend|].
  destruct fuel as [|fuel]; [lia|].
  rewrite engineDefaultsLoop_step. simpl in Hend.
  destruct (DescribeEngineDefaultParameters svc input (world st))
    as [w' [[[[defaults|]]|] [e|]]]; simpl; try discriminate.
  match goal with
  | |- context [scanParameters paramName ?ps ?s] =>
      pose proof (scanParameters_frame paramName ps s) as (Hw & _ & Hne);
      destruct (scanParameters paramName ps s) as [st2 [[value|]| |]]
  end; simpl in *; try discriminate; [|congruence].
  destruct (marker_is_empty (Marker defaults)) eqn:Hm; simpl; [discriminate|].
  destruct Hend as [Hend|Hend]; [discriminate|].
  apply IH; [now rewrite Hw | lia].
Qed.

Lemma engineDefaultsLoop_absent (paramName : string) (k : nat) :
  forall (fuel : nat) (input : DescribeEngineDefaultParametersInput) (st : state W),
    absent_through svc k paramName input (world st) -> k <= fuel ->
    exists st',
      engineDefaultsLoop svc fuel paramName input st = (st', Done ("", None)) /\
      page_requests (trace st') = page_requests (trace st) + k.
Proof.
  induction k as [|k IH]; intros fuel input st Habs Hfuel; [destruct Habs|].
  destruct fuel as [|fuel]; [lia|].
  destruct Habs as (w' & defaults & Hcall & Hnone & Hrest).
  rewrite engineDefaultsLoop_step, Hcall. simpl.
  rewrite (scanParameters_no_match _ _ _ Hnone).
  destruct k as [|k].
  - rewrite Hrest. eexists. split; [reflexivity|]. simpl.
    rewrite page_requests_app. reflexivity.
  - destruct Hrest as [Hmarker Hrest]. rewrite Hmarker.
    match goal with
    | |- context [engineDefaultsLoop svc fuel paramName ?inp ?s] =>
        destruct (IH fuel inp s) as (st' & Hrun & Hcount); [exact Hrest | lia |]
    end.
    rewrite Hrun. eexists. split; [reflexivity|].
    rewrite Hcount. simpl. rewrite page_requests_app. unfold page_requests; simpl. lia.
Qed.

Lemma engineDefaultsLoop_found (paramName value : string) (k : nat) :
  forall (fuel : nat) (input : DescribeEngineDefaultParametersInput) (st : state W),
    found_on_page svc k paramName value input (world st) -> k <= fuel ->
    exists st',
      engineDefaultsLoop svc fuel paramName input st = (st', Done (value, None)) /\
      page_requests (trace st') = page_requests (trace st) + k.
Proof.
  induction k as [|k IH]; intros fuel input st Hfound Hfuel; [destruct Hfound|].
  destruct fuel as [|fuel]; [lia|].
  destruct Hfound as (w' & defaults & Hcall & Hrest).
  rewrite engineDefaultsLoop_step, Hcall. simpl.
  destruct k as [|k].
  - destruct Hrest as (pre & p & post & -> & Hpre & Hname & Hvalue).
    rewrite (scanParameters_match _ _ _ _ _ _ Hpre Hname Hvalue).
    eexists. split; [reflexivity|]. simpl.
    rewrite !page_requests_app. unfold page_requests; simpl. lia.
  - destruct Hrest as (Hnone & Hmarker & Hrest).
    rewrite (scanParameters_no_match _ _ _ Hnone), Hmarker.
    match goal with
    | |- context [engineDefaultsLoop svc fuel paramName ?inp ?s] =>
        destruct (IH fuel inp s) as (st' & Hrun & Hcount); [exact Hrest | lia |]
    end.
    rewrite Hrun. eexists. split; [reflexivity|].
    rewrite Hcount. simpl. rewrite page_requests_app. unfold page_requests; simpl. lia.
Qed.

Lemma getParameterGroupFamily_fuel (i : RDSInstance) (st : state W) :
  snd (getParameterGroupFamily svc i st) <> OutOfFuel.
Proof.
  unfold getParameterGroupFamily.
  destruct (String.eqb (ParameterGroupFamily i) ""); simpl; [|discriminate].
  destruct (String.eqb (DbVersion i) ""); [|discriminate].
  unfold bind, call.
  destruct (DescribeDBEngineVersions svc _ (world st))
    as [w' [[[[|[[[family|]]|] rest]]|] [e|]]]; simpl; discriminate.
Qed.

Lemma getDefaultEngineParameter_resolved (fuel : nat) (paramName : string)
    (i i1 : RDSInstance) (st st1 : state W) :
  getParameterGroupFamily svc i st = (st1, Done (i1, None)) ->
  getDefaultEngineParameter svc fuel paramName i st =
    match engineDefaultsLoop svc fuel paramName (first_request i1) st1 with
    | (st', Done res) => (st', Done (i1, res))
    | (st', Panicked p) => (st', Panicked p)
    | (st', OutOfFuel) => (st', OutOfFuel)
    end.
Proof.
  intros H. unfold getDefaultEngineParameter, bind. rewrite H.
  fold (first_request i1).
  destruct (engineDefaultsLoop svc fuel paramName (first_request i1) st1)
    as [st' [res| |]]; reflexivity.
Qed.

(** C8. Let the family of the instance be resolved without error. If the
    catalogue of engine defaults has [k] pages, each fetched without error,
    none with a parameter of the requested name, the last with an empty or
    absent marker, the lookup returns the empty string and a nil error,
    after [k] requests. If page [k] is the first to hold a parameter of the
    requested name, the lookup returns that parameter's value and a nil
    error after [k] requests: it asks for no further page. *)
Theorem getDefaultEngineParameter_absent_or_found (paramName : string)
    (i i1 : RDSInstance) (st st1 : state W) :
  getParameterGroupFamily svc i st = (st1, Done (i1, None)) ->
  (forall k fuel : nat,
     absent_through svc k paramName (first_request i1) (world st1) -> k <= fuel ->
     exists st',
       getDefaultEngineParameter svc fuel paramName i st =
         (st', Done (i1, ("", None))) /\
       page_requests (trace st') = page_requests (trace st1) + k) /\
  (forall (k fuel : nat) (value : string),
     found_on_page svc k paramName value (first_request i1) (world st1) -> k <= fuel ->
     exists st',
       getDefaultEngineParameter svc fuel paramName i st =
         (st', Done (i1, (value, None))) /\
       page_requests (trace st') = page_requests (trace st1) + k).
Proof.
  intros Hfamily. split.
  - intros k fuel Habs Hfuel.
    destruct (engineDefaultsLoop_absent paramName k fuel _ st1 Habs Hfuel)
      as (st' & Hrun & Hcount).
    exists st'. rewrite (getDefaultEngineParameter_resolved _ _ _ _ _ _ Hfamily), Hrun.
    auto.
  - intros k fuel value Hfound Hfuel.
    destruct (engineDefaultsLoop_found paramName value k fuel _ st1 Hfound Hfuel)
      as (st' & Hrun & Hcount).
    exists st'. rewrite (getDefaultEngineParameter_resolved _ _ _ _ _ _ Hfamily), Hrun.
    auto.
Qed.

(** The lookup returns whenever the chain of markers ends within the fuel. *)
Lemma getDefaultEngineParameter_returns (n fuel : nat) (paramName : string)
    (i : RDSInstance) (st : state W) :
  (forall input w, markers_end svc n input w) -> n <= fuel ->
  snd (getDefaultEngineParameter svc fuel paramName i st) <> OutOfFuel.
Proof.
  intros Hend Hfuel. unfold getDefaultEngineParameter, bind.
  pose proof (getParameterGroupFamily_fuel i st) as Hfam.
  destruct (getParameterGroupFamily svc i st) as [st1 [[i1 [e|]]| |]];
    simpl in *; try discriminate; try congruence.
  pose proof (engineDefaultsLoop_terminates n fuel paramName
                {| edDBParameterGroupFamily := ParameterGroupFamily i1;
                   edMarker := None |} st1 (Hend _ _) Hfuel) as Hloop.
  destruct (engineDefaultsLoop svc fuel paramName _ st1) as [st' [res| |]];
    simpl in *; try discriminate; congruence.
Qed.

End Lookup.

Lemma two_pages_absent :
  absent_through Doubles.two_pages 2 "no_such_parameter"
    (first_request pinned_resolved) (world Doubles.start).
Proof.
  simpl. eexists _, _. split; [reflexivity|]. simpl.
  split; [solve_no_match|].
  split; [reflexivity|].
  eexists _, _. split; [reflexivity|]. simpl.
  split; [|reflexivity].
  solve_no_match.
Defined.

Lemma two_pages_found :
  found_on_page Doubles.two_pages 2 "shared_preload_libraries" "pg_stat_statements"
    (first_request pinned_resolved) (world Doubles.start).
Proof.
  simpl. eexists _, _. split; [reflexivity|]. simpl.
  split; [solve_no_match|].
  split; [reflexivity|].
  eexists _, _. split; [reflexivity|]. simpl.
  exists [Doubles.named "work_mem" "4096"], 
    {| ApplyMethod := None; ParameterName := Some "shared_preload_libraries";
       ParameterValue := Some "pg_stat_statements" |},
    [Doubles.named "wal_level" "replica"].
  split; [reflexivity|]. split; [|split; reflexivity].
  solve_no_match.
Defined.

Lemma getDefaultEngineParameter_absent_or_found_witness :
  (exists st',
     getDefaultEngineParameter Doubles.two_pages 2 "no_such_parameter" pinned
       Doubles.start = (st', Done (pinned_resolved, ("", None))) /\
     page_requests (trace st') = page_requests (trace Doubles.start) + 2) /\
  (exists st',
     getDefaultEngineParameter Doubles.two_pages 7 "shared_preload_libraries" pinned
       Doubles.start = (st', Done (pinned_resolved, ("pg_stat_statements", None))) /\
     page_requests (trace st') = page_requests (trace Doubles.start) + 2).
Proof.
  split.
  - apply (proj1 (getDefaultEngineParameter_absent_or_found Doubles.two_pages
                    "no_such_parameter" pinned pinned_resolved Doubles.start
                    Doubles.start eq_refl) 2 2 two_pages_absent).
    lia.
  - apply (proj2 (getDefaultEngineParameter_absent_or_found Doubles.two_pages
                    "shared_preload_libraries" pinned pinned_resolved Doubles.start
                    Doubles.start eq_refl) 2 7 "pg_stat_statements" two_pages_found).
    lia.
Defined.

(** The run of the lookup on the two-page catalogue: two requests, the second
    with the marker of the first page, and the line of the log. *)
Example getDefaultEngineParameter_two_pages :
  getDefaultEngineParameter Doubles.two_pages 7 "shared_preload_libraries" pinned
    Doubles.start =
  ({| world := 2;
      trace :=
        [CallDescribeEngineDefaultParameters
           {| edDBParameterGroupFamily := "postgres12.5"; edMarker := None |};
         CallDescribeEngineDefaultParameters
           {| edDBParameterGroupFamily := "postgres12.5"; edMarker := Some "page2" |};
         Log "found default parameter value pg_stat_statements for parameter shared_preload_libraries"] |},
   Done (pinned_resolved, ("pg_stat_statements", None))).
Proof. reflexivity. Qed.

(** *** Termination of the lookup *)

Lemma endless_loop (paramName : string) (fuel : nat) :
  forall (input : DescribeEngineDefaultParametersInput) (st : state nat),
    snd (engineDefaultsLoop Doubles.endless fuel paramName input st) = OutOfFuel /\
    page_requests (trace (fst (engineDefaultsLoop Doubles.endless fuel paramName input st)))
      = page_requests (trace st) + fuel.
Proof.
  induction fuel as [|fuel IH]; intros input st.
  - simpl. split; [reflexivity | lia].
  - rewrite engineDefaultsLoop_step. simpl.
    match goal with
    | |- context [engineDefaultsLoop _ fuel paramName ?inp ?s] =>
        destruct (IH inp s) as [Hout Hcount]
    end.
    split; [exact Hout|]. rewrite Hcount. simpl.
    rewrite page_requests_app. unfold page_requests; simpl. lia.
Qed.

Lemma endless_lookup (fuel : nat) :
  snd (getDefaultEngineParameter Doubles.endless fuel "shared_preload_libraries"
         pinned Doubles.start) = OutOfFuel /\
  page_requests
    (trace (fst (getDefaultEngineParameter Doubles.endless fuel
                   "shared_preload_libraries" pinned Doubles.start))) = fuel.
Proof.
  rewrite (getDefaultEngineParameter_resolved Doubles.endless fuel _ pinned
             pinned_resolved Doubles.start Doubles.start eq_refl).
  destruct (endless_loop "shared_preload_libraries" fuel
              (first_request pinned_resolved) Doubles.start) as [Hout Hcount].
  destruct (engineDefaultsLoop Doubles.endless fuel "shared_preload_libraries"
              (first_request pinned_resolved) Doubles.start) as [st' [res| |]];
    simpl in *; try discriminate.
  split; [reflexivity | exact Hcount].
Qed.


Lemma two_pages_markers_end :
  forall input w, markers_end Doubles.two_pages 2 input w.
Proof.
  intros [family [marker|]] w; simpl; auto.
Defined.



(** ** The group lifecycle manager *)

Lemma family_update_refl (i : RDSInstance) : family_update i i.
Proof. now left. Qed.

Lemma family_update_trans (i i1 i2 : RDSInstance) :
  family_update i i1 -> family_update i1 i2 -> family_update i i2.
Proof.
  intros [->|[f ->]] [->|[g ->]]; unfold family_update; eauto.
Qed.

Lemma needCustomParameters_family (i i' : RDSInstance) (s : Settings) :
  family_update i i' -> needCustomParameters i' s = needCustomParameters i s.
Proof. intros [->|[f ->]]; reflexivity. Qed.

Section Provision.

Context {W : Type}.
Variable svc : RDSAPI W.
Variable FormatDBName : RDSInstance -> string.

(** The formatted name is a transform of the database name: it does not read
    the memoized family. *)
Hypothesis FormatDBName_stable :
  forall i family, FormatDBName (set_ParameterGroupFamily i family) = FormatDBName i.

Lemma FormatDBName_family (i i' : RDSInstance) :
  family_update i i' -> FormatDBName i' = FormatDBName i.
Proof. intros [->|[f ->]]; [reflexivity | apply FormatDBName_stable]. Qed.

Hypothesis Hsvc : calls_succeed svc.

Lemma getParameterGroupFamily_succeeds (i : RDSInstance) (st : state W) :
  exists st' i',
    getParameterGroupFamily svc i st = (st', Done (i', None)) /\ family_update i i'.
Proof.
  unfold getParameterGroupFamily, family_update.
  destruct (String.eqb (ParameterGroupFamily i) ""); simpl; [|eauto 6].
  destruct (String.eqb (DbVersion i) ""); [|eauto 7].
  unfold bind, call.
  destruct (engine_versions_succeed svc Hsvc
              {| DefaultOnly := true; Engine := DbType i |} (world st))
    as (info & v & family & rest & Hcall & Hl & Hf).
  destruct (DescribeDBEngineVersions svc _ (world st)) as [w' r]. simpl in Hcall.
  subst r. simpl. rewrite Hl. simpl. rewrite Hf. simpl. eauto 7.
Qed.

Lemma scanParameters_well_formed (paramName : string)
    (params : list (option RdsParameter)) (st : state W) :
  Forall (fun param =>
            exists p name value, param = Some p /\ ParameterName p = Some name /\
                                 ParameterValue p = Some value) params ->
  exists st' found,
    scanParameters paramName params st = (st', Done found) /\ world st' = world st.
Proof.
  induction 1 as [|param rest (p & name & value & -> & Hname & Hvalue) _ IH]; simpl;
    [eauto|].
  unfold bind; simpl. rewrite Hname; simpl.
  destruct (String.eqb name paramName); [|exact IH].
  rewrite Hvalue; simpl. eauto.
Qed.

Lemma engineDefaultsLoop_succeeds (paramName : string) (n : nat) :
  forall (fuel : nat) (input : DescribeEngineDefaultParametersInput) (st : state W),
    markers_end svc n input (world st) -> n <= fuel ->
    exists st' value,
      engineDefaultsLoop svc fuel paramName input st = (st', Done (value, None)).
Proof.
  induction n as [|n IH]; intros fuel input st Hend Hfuel; [destruct Hend|].
  destruct fuel as [|fuel]; [lia|].
  rewrite engineDefaultsLoop_step. simpl in Hend.
  destruct (engine_defaults_succeed svc Hsvc input (world st)) as (defaults & Hcall & Hwf).
  destruct (DescribeEngineDefaultParameters svc input (world st)) as [w' r].
  simpl in Hcall. subst r. simpl.
  match goal with
  | |- context [scanParameters paramName ?ps ?s] =>
      destruct (scanParameters_well_formed paramName ps s Hwf)
        as (st2 & found & Hscan & Hworld); rewrite Hscan
  end.
  destruct found as [value|]; [eauto|].
  destruct (marker_is_empty (Marker defaults)) eqn:Hm; [eauto|].
  destruct Hend as [Hend|Hend]; [discriminate|].
  apply IH; [now rewrite Hworld | lia].
Qed.

Section Bounded.

Variable fuel : nat.

(** The chain of markers of the catalogue ends within the fuel. *)
Hypothesis Hpages : forall input w, markers_end svc fuel input w.

Lemma getDefaultEngineParameter_succeeds (paramName : string) (i : RDSInstance)
    (st : state W) :
  exists st' i' value,
    getDefaultEngineParameter svc fuel paramName i st = (st', Done (i', (value, None))) /\
    family_update i i'.
Proof.
  destruct (getParameterGroupFamily_succeeds i st) as (st1 & i1 & Hfam & Hup).
  rewrite (getDefaultEngineParameter_resolved svc fuel paramName i i1 st st1 Hfam).
  destruct (engineDefaultsLoop_succeeds paramName fuel fuel (first_request i1) st1
              (Hpages _ _) (Nat.le_refl _)) as (st' & value & Hrun).
  rewrite Hrun. eauto.
Qed.

Lemma getCustomParameters_succeeds (i : RDSInstance) (s : Settings) (st : state W) :
  exists st' i' customRDSParameters,
    getCustomParameters svc fuel i s st = (st', Done (i', (customRDSParameters, None))) /\
    family_update i i'.
Proof.
  unfold getCustomParameters.
  destruct (String.eqb (DbType i) "postgres");
    [|eauto using family_update_refl].
  destruct (EnablePgCron i); [|eauto using family_update_refl].
  unfold buildCustomSharePreloadLibrariesParam, bind.
  destruct (getDefaultEngineParameter_succeeds "shared_preload_libraries" i st)
    as (st' & i' & value & Hrun & Hup).
  rewrite Hrun. simpl. eauto.
Qed.

Lemma createOrModifyCustomParameterGroup_succeeds (i : RDSInstance)
    (customparams : gmap string (gmap string string)) (st : state W) :
  exists st' i',
    createOrModifyCustomParameterGroup svc FormatDBName i customparams st =
      (st', Done (i', (pGroupPrefix +:+ FormatDBName i, None))) /\
    family_update i i'.
Proof.
  unfold createOrModifyCustomParameterGroup, checkIfParameterGroupExists, bind, call.
  destruct (DescribeDBParameters svc _ (world st)) as [w1 [e|]]; simpl.
  - match goal with
    | |- context [getParameterGroupFamily svc i ?s] =>
        destruct (getParameterGroupFamily_succeeds i s) as (st1 & i1 & Hfam & Hup)
    end.
    rewrite Hfam. simpl.
    pose proof (create_succeeds svc Hsvc) as Hcreate.
    match goal with
    | |- context [CreateDBParameterGroup svc ?inp ?w] =>
        specialize (Hcreate inp w);
        destruct (CreateDBParameterGroup svc inp w) as [w2 r2]
    end.
    simpl in Hcreate. subst r2. simpl.
    pose proof (modify_succeeds svc Hsvc) as Hmodify.
    match goal with
    | |- context [ModifyDBParameterGroup svc ?inp ?w] =>
        specialize (Hmodify inp w);
        destruct (ModifyDBParameterGroup svc inp w) as [w3 r3]
    end.
    simpl in Hmodify. subst r3. simpl. eauto.
  - pose proof (modify_succeeds svc Hsvc) as Hmodify.
    match goal with
    | |- context [ModifyDBParameterGroup svc ?inp ?w] =>
        specialize (Hmodify inp w);
        destruct (ModifyDBParameterGroup svc inp w) as [w3 r3]
    end.
    simpl in Hmodify. subst r3. simpl. eauto using family_update_refl.
Qed.

Lemma Provision_succeeds (i : RDSInstance) (s : Settings) (st : state W) :
  needCustomParameters i s = true ->
  exists st' i',
    ProvisionCustomParameterGroupIfNecessary svc FormatDBName fuel i s st =
      (st', Done (i', (pGroupPrefix +:+ FormatDBName i, None))) /\
    family_update i i'.
Proof.
  intros Hneed. unfold ProvisionCustomParameterGroupIfNecessary. rewrite Hneed. simpl.
  unfold bind.
  destruct (getCustomParameters_succeeds i s st) as (st1 & i1 & m & Hcustom & Hup1).
  rewrite Hcustom.
  destruct (createOrModifyCustomParameterGroup_succeeds i1 m st1)
    as (st2 & i2 & Hgroup & Hup2).
  rewrite Hgroup, (FormatDBName_family i i1 Hup1).
  eauto using family_update_trans.
Qed.

End Bounded.

End Provision.


Lemma two_pages_calls_succeed : calls_succeed Doubles.two_pages.
Proof.
  split.
  - reflexivity.
  - reflexivity.
  - intros input w. simpl. eexists _, _, _, _. repeat split.
  - intros [family [marker|]] w; simpl; eexists; (split; [reflexivity|]);
      unfold well_formed_page; simpl;
      repeat (apply List.Forall_cons; [eexists _, _, _; repeat split|]);
      apply List.Forall_nil.
Defined.


(** The run behind the witness: the existence check, the two pages of engine
    defaults read for [shared_preload_libraries], and the parameters applied
    to the group. *)
Example ProvisionCustomParameterGroupIfNecessary_orders :
  ProvisionCustomParameterGroupIfNecessary Doubles.two_pages Database 2 orders
    {| EnableFunctionsFeature := true |} Doubles.start =
  ({| world := 4;
      trace :=
        [CallDescribeEngineDefaultParameters
           {| edDBParameterGroupFamily := "postgres12.5"; edMarker := None |};
         CallDescribeEngineDefaultParameters
           {| edDBParameterGroupFamily := "postgres12.5"; edMarker := Some "page2" |};
         Log "found default parameter value pg_stat_statements for parameter shared_preload_libraries";
         CallDescribeDBParameters
           {| ddpDBParameterGroupName := "cg-aws-broker-orders"; ddpMaxRecords := 20;
              ddpSource := "system" |};
         Log "cg-aws-broker-orders parameter group already exists";
         CallModifyDBParameterGroup
           {| mgDBParameterGroupName := "cg-aws-broker-orders";
              mgParameters :=
                [Some {| ApplyMethod := Some "immediate";
                         ParameterName := Some "shared_preload_libraries";
                         ParameterValue := Some "pg_cron,pg_stat_statements" |}] |}] |},
   Done (set_ParameterGroupFamily orders "postgres12.5",
         ("cg-aws-broker-orders", None))).
Proof. vm_compute. reflexivity. Qed.

(** ** The cleanup sweep *)

Lemma deleted_app (a b : list event) : deleted (a ++ b) = (deleted a ++ deleted b)%list.
Proof. unfold deleted. apply flat_map_app. Qed.

Lemma only_prefixed_app (a b : list event) :
  only_prefixed a -> only_prefixed b -> only_prefixed (a ++ b).
Proof.
  unfold only_prefixed. rewrite deleted_app. intros Ha Hb.
  apply List.Forall_app. split; assumption.
Qed.

Section Sweep.

Context {W : Type}.
Variable svc : RDSAPI W.

Lemma keeps_ret {A} (a : A) : keeps_prefixed (@ret W A a).
Proof. intros st H. exact H. Qed.

Lemma keeps_raise {A} (p : panic) : keeps_prefixed (@raise W A p).
Proof. intros st H. exact H. Qed.

Lemma keeps_out_of_fuel {A} : keeps_prefixed (@out_of_fuel W A).
Proof. intros st H. exact H. Qed.

Lemma keeps_bind {A B} (m : M W A) (k : A -> M W B) :
  keeps_prefixed m -> (forall a, keeps_prefixed (k a)) -> keeps_prefixed (bind m k).
Proof.
  intros Hm Hk st H. unfold bind. specialize (Hm st H).
  destruct (m st) as [st' [a| |]]; simpl in *; [now apply Hk | exact Hm | exact Hm].
Qed.

Lemma keeps_log (line : string) : keeps_prefixed (@log_line W line).
Proof.
  intros st H. simpl. apply only_prefixed_app; [exact H | constructor].
Qed.

Lemma keeps_deref {A} (p : option A) : keeps_prefixed (@deref W A p).
Proof. destruct p; [apply keeps_ret | apply keeps_raise]. Qed.

Lemma keeps_call {I R} (ev : I -> event) (op : I -> W -> W * R) (input : I) :
  only_prefixed [ev input] -> keeps_prefixed (call ev op input).
Proof.
  intros Hev st H. unfold call. destruct (op input (world st)) as [w' r]. simpl.
  apply only_prefixed_app; assumption.
Qed.

Lemma keeps_cleanupGroup (pgroup : option DBParameterGroup) :
  keeps_prefixed (cleanupGroup svc pgroup).
Proof.
  unfold cleanupGroup.
  apply keeps_bind; [apply keeps_deref|]. intros g.
  apply keeps_bind; [apply keeps_deref|]. intros name.
  unfold regexp_Match_prefix.
  apply keeps_bind; [apply keeps_ret|]. intros _.
  destruct (String.prefix pGroupPrefix name) eqn:Hprefix; [|apply keeps_ret].
  apply keeps_bind.
  - apply keeps_call. repeat constructor. exact Hprefix.
  - intros [e|]; [|apply keeps_log].
    apply keeps_bind.
    + destruct e; [apply keeps_ret | apply keeps_raise | apply keeps_raise].
    + intros code. destruct (negb _); [apply keeps_log | apply keeps_ret].
Qed.

Lemma keeps_cleanupGroups (pgroups : list (option DBParameterGroup)) :
  keeps_prefixed (cleanupGroups svc pgroups).
Proof.
  induction pgroups as [|pgroup rest IH]; simpl; [apply keeps_ret|].
  apply keeps_bind; [apply keeps_cleanupGroup | intros _; exact IH].
Qed.

Lemma keeps_cleanupPage (page : DescribeDBParameterGroupsOutput) (lastPage : bool) :
  keeps_prefixed (cleanupPage svc page lastPage).
Proof.
  unfold cleanupPage.
  apply keeps_bind; [apply keeps_cleanupGroups | intros _; apply keeps_ret].
Qed.

Lemma keeps_pages (fuel : nat) :
  forall input, keeps_prefixed (DescribeDBParameterGroupsPages svc fuel input
                                  (cleanupPage svc)).
Proof.
  induction fuel as [|fuel IH]; intros input; simpl; [apply keeps_out_of_fuel|].
  apply keeps_bind; [apply keeps_call; constructor|].
  intros [page|e]; [|apply keeps_ret].
  apply keeps_bind; [apply keeps_cleanupPage|].
  intros continue. destruct (continue && negb _); [apply IH | apply keeps_ret].
Qed.

(** No sweep requests the deletion of a group whose name does not start with
    the broker's prefix: whatever the control plane answers, and however the
    sweep ends. *)
Lemma cleanup_deletes_only_prefixed (fuel : nat) (st : state W) :
  only_prefixed (trace st) ->
  only_prefixed (trace (fst (cleanupCustomParameterGroups svc fuel st))).
Proof.
  revert st. unfold cleanupCustomParameterGroups.
  apply keeps_bind; [apply keeps_pages|].
  intros [e|]; [apply keeps_log | apply keeps_ret].
Qed.

(** A group of the broker that is in use: the failed deletion leaves no line
    in the log and the loop goes on. *)
Lemma cleanupGroup_in_use (name message : string) (st : state W) (w' : W) :
  has_prefix name = true ->
  DeleteDBParameterGroup svc {| delDBParameterGroupName := name |} (world st) =
    (w', Some (AwsErr "InvalidDBParameterGroupState" message)) ->
  cleanupGroup svc (Some {| DBParameterGroupName := Some name |}) st =
    ({| world := w';
        trace := trace st ++
                 [CallDeleteDBParameterGroup {| delDBParameterGroupName := name |}] |},
     Done tt).
Proof.
  intros Hprefix Hdelete. unfold cleanupGroup, bind, call; simpl.
  unfold has_prefix in Hprefix. rewrite Hprefix, Hdelete. reflexivity.
Qed.

(** A deletion that fails with any other code: one line in the log, and the
    loop goes on. *)
Lemma cleanupGroup_other_code (name code message : string) (st : state W) (w' : W) :
  has_prefix name = true -> code <> "InvalidDBParameterGroupState" ->
  DeleteDBParameterGroup svc {| delDBParameterGroupName := name |} (world st) =
    (w', Some (AwsErr code message)) ->
  cleanupGroup svc (Some {| DBParameterGroupName := Some name |}) st =
    ({| world := w';
        trace := (trace st ++
                 [CallDeleteDBParameterGroup {| delDBParameterGroupName := name |}]) ++
                 [Log ("There was an error cleaning up the " +:+ name +:+
                       " parameter group.  The error was: " +:+
                       Error_ (AwsErr code message))] |},
     Done tt).
Proof.
  intros Hprefix Hcode Hdelete. unfold cleanupGroup, bind, call; simpl.
  unfold has_prefix in Hprefix. rewrite Hprefix, Hdelete. simpl.
  destruct (String.eqb_spec code "InvalidDBParameterGroupState"); [congruence|].
  reflexivity.
Qed.

(** A deletion that fails with an error that is not an [awserr.Error]: the
    type assertion panics. *)
Lemma cleanupGroup_uncoded (name : string) (e : error) (st : state W) (w' : W) :
  has_prefix name = true -> (forall code message, e <> AwsErr code message) ->
  DeleteDBParameterGroup svc {| delDBParameterGroupName := name |} (world st) =
    (w', Some e) ->
  cleanupGroup svc (Some {| DBParameterGroupName := Some name |}) st =
    ({| world := w';
        trace := trace st ++
                 [CallDeleteDBParameterGroup {| delDBParameterGroupName := name |}] |},
     Panicked TypeAssertion).
Proof.
  intros Hprefix He Hdelete. unfold cleanupGroup, bind, call; simpl.
  unfold has_prefix in Hprefix. rewrite Hprefix, Hdelete. simpl.
  destruct e as [code message| |]; [now destruct (He code message) | reflexivity ..].
Qed.

(** With coded errors, no failed deletion stops the loop over a page: the
    deletion of every group of the page that has the prefix is requested, in
    order, whatever the earlier deletions returned. *)
Lemma cleanupGroups_complete (pgroups : list (option DBParameterGroup)) :
  delete_errors_coded svc -> all_named pgroups ->
  forall st : state W,
  exists st',
    cleanupGroups svc pgroups st = (st', Done tt) /\
    deleted (trace st') =
      (deleted (trace st) ++ List.filter has_prefix (group_names pgroups))%list.
Proof.
  intros Hcoded Hnamed.
  induction Hnamed as [|pgroup rest [name ->] _ IH]; intros st; simpl.
  - exists st. split; [reflexivity|]. now rewrite app_nil_r.
  - assert (Hstep : exists st1,
               cleanupGroup svc (Some {| DBParameterGroupName := Some name |}) st =
                 (st1, Done tt) /\
               deleted (trace st1) =
                 (deleted (trace st) ++ if has_prefix name then [name] else [])%list).
    { unfold cleanupGroup, bind, call; simpl. unfold has_prefix.
      destruct (String.prefix pGroupPrefix name); simpl.
      - pose proof (Hcoded {| delDBParameterGroupName := name |} (world st)) as He.
        destruct (DeleteDBParameterGroup svc _ (world st)) as [w' [e|]]; simpl in *.
        + destruct (He e eq_refl) as (code & message & ->). simpl.
          destruct (negb _); simpl; eexists; (split; [reflexivity|]); simpl;
            rewrite ?deleted_app; simpl; now rewrite ?app_nil_r.
        + eexists. split; [reflexivity|]. simpl.
          rewrite !deleted_app. simpl. now rewrite app_nil_r.
      - exists st. split; [reflexivity|]. now rewrite app_nil_r. }
    destruct Hstep as (st1 & Hrun1 & Hdel1).
    destruct (IH st1) as (st' & Hrun & Hdel).
    exists st'. unfold bind. rewrite Hrun1. split; [exact Hrun|].
    rewrite Hdel, Hdel1, <- app_assoc.
    destruct (has_prefix name); reflexivity.
Qed.

End Sweep.

(** A sweep over two pages with coded failures: the group in use is skipped
    without a line in the log, the default group is not touched, the denied
    deletion is logged, and the sweep goes on to the second page. *)
Example cleanup_with_coded_failures :
  cleanupCustomParameterGroups Doubles.coded_failures 5 Doubles.start =
  ({| world := 5;
      trace :=
        [CallDescribeDBParameterGroups {| dgMarker := None |};
         CallDeleteDBParameterGroup {| delDBParameterGroupName := "cg-aws-broker-a" |};
         CallDeleteDBParameterGroup {| delDBParameterGroupName := "cg-aws-broker-b" |};
         Log "There was an error cleaning up the cg-aws-broker-b parameter group.  The error was: AccessDenied: not authorized";
         CallDescribeDBParameterGroups {| dgMarker := Some "page2" |};
         CallDeleteDBParameterGroup {| delDBParameterGroupName := "cg-aws-broker-c" |};
         Log "cleaned up cg-aws-broker-c parameter group"] |},
   Done tt).
Proof. reflexivity. Qed.

(** C9 at the input where the code departs from it: when the deletion of the
    first group fails with an error that is not an [awserr.Error], the
    assertion [err.(awserr.Error)] panics; the sweep stops there, and the
    deletion of the groups that remain ("cg-aws-broker-b" on the same page,
    "cg-aws-broker-c" on the next) is never requested. *)
Theorem cleanup_uncoded_failure_stops_sweep :
  cleanupCustomParameterGroups Doubles.uncoded_failure 5 Doubles.start =
  ({| world := 2;
      trace :=
        [CallDescribeDBParameterGroups {| dgMarker := None |};
         CallDeleteDBParameterGroup {| delDBParameterGroupName := "cg-aws-broker-a" |}] |},
   Panicked TypeAssertion).
Proof. reflexivity. Qed.

Lemma coded_failures_coded : delete_errors_coded Doubles.coded_failures.
Proof.
  intros input w e. simpl.
  destruct (String.eqb (delDBParameterGroupName input) "cg-aws-broker-a");
    [intros [= <-]; eauto|].
  destruct (String.eqb (delDBParameterGroupName input) "cg-aws-broker-b");
    [intros [= <-]; eauto | discriminate].
Defined.

Lemma first_page_named :
  all_named [Doubles.group "cg-aws-broker-a"; Doubles.group "default.mysql8.0";
             Doubles.group "cg-aws-broker-b"].
Proof. repeat (apply List.Forall_cons; [eexists; reflexivity|]). apply List.Forall_nil. Defined.

Lemma cleanupGroups_complete_witness :
  exists st',
    cleanupGroups Doubles.coded_failures
      [Doubles.group "cg-aws-broker-a"; Doubles.group "default.mysql8.0";
       Doubles.group "cg-aws-broker-b"] Doubles.start = (st', Done tt) /\
    deleted (trace st') =
      (deleted (trace Doubles.start) ++
       List.filter has_prefix
         (group_names [Doubles.group "cg-aws-broker-a"; Doubles.group "default.mysql8.0";
                       Doubles.group "cg-aws-broker-b"]))%list.
Proof.
  apply (cleanupGroups_complete Doubles.coded_failures _ coded_failures_coded
           first_page_named Doubles.start).
Defined.

Lemma cleanup_deletes_only_prefixed_witness :
  only_prefixed
    (trace (fst (cleanupCustomParameterGroups Doubles.coded_failures 5 Doubles.start))).
Proof.
  apply (cleanup_deletes_only_prefixed Doubles.coded_failures 5 Doubles.start).
  apply List.Forall_nil.
Defined.

Lemma cleanupGroup_in_use_witness :
  cleanupGroup Doubles.coded_failures
    (Some {| DBParameterGroupName := Some "cg-aws-broker-a" |}) Doubles.start =
  ({| world := 1;
      trace := trace Doubles.start ++
               [CallDeleteDBParameterGroup
                  {| delDBParameterGroupName := "cg-aws-broker-a" |}] |},
   Done tt).
Proof.
  apply (cleanupGroup_in_use Doubles.coded_failures "cg-aws-broker-a" "group is in use"
           Doubles.start 1); reflexivity.
Defined.

(** ** The table of [TestModifyInstance], on the model of [modify] *)

Example TestModifyInstance_storage_and_retention :
  modify (set_AllocatedStorage emptyInstance 10) (options_storage 20) no_plan no_settings
    = (set_AllocatedStorage emptyInstance 20, None) /\
  fst (modify (set_AllocatedStorage emptyInstance 20) (options_storage 10) no_plan
         no_settings) = set_AllocatedStorage emptyInstance 20 /\
  modify (set_AllocatedStorage emptyInstance 20) (options_storage 0) no_plan no_settings
    = (set_AllocatedStorage emptyInstance 20, None) /\
  modify (set_BackupRetentionPeriod emptyInstance 10)
    {| optAllocatedStorage := 0; optBackupRetentionPeriod := 20;
       optBinaryLogFormat := ""; optEnablePgCron := None |} no_plan no_settings
    = (set_BackupRetentionPeriod emptyInstance 20, None) /\
  modify (set_BackupRetentionPeriod emptyInstance 20) no_options no_plan no_settings
    = (set_BackupRetentionPeriod emptyInstance 20, None).
Proof. repeat split. Qed.

Example TestModifyInstance_binlog_pgcron_version :
  modify emptyInstance
    {| optAllocatedStorage := 0; optBackupRetentionPeriod := 0;
       optBinaryLogFormat := "ROW"; optEnablePgCron := None |} no_plan no_settings
    = (set_BinaryLogFormat emptyInstance "ROW", None) /\
  modify emptyInstance
    {| optAllocatedStorage := 0; optBackupRetentionPeriod := 0;
       optBinaryLogFormat := ""; optEnablePgCron := Some true |} no_plan no_settings
    = (set_EnablePgCron emptyInstance true, None) /\
  modify emptyInstance no_options no_plan no_settings = (emptyInstance, None) /\
  modify emptyInstance no_options {| planDbVersion := "12" |} no_settings
    = (set_DbVersion emptyInstance "12", None).
Proof. repeat split. Qed.

(** The row "enable PG cron not specified on options, true on existing
    instance": the model, as section 4.1 words it, keeps the flag. (The
    expected instance of that row has the flag unset; the row is not
    reproduced by the model.) *)
Example TestModifyInstance_pgcron_unspecified_on_enabled :
  modify (set_EnablePgCron emptyInstance true) no_options no_plan no_settings
    = (set_EnablePgCron emptyInstance true, None).
Proof. reflexivity. Qed.

(** * Further properties of [parameter_group.go] *)

(** ** The requests an operation makes *)

Section Footprint.

Context {W : Type}.
Variable svc : RDSAPI W.

Lemma emits_weaken {A} (P Q : event -> Prop) (m : M W A) :
  (forall e, P e -> Q e) -> emits P m -> emits Q m.
Proof.
  intros HPQ Hm st. destruct (Hm st) as (t & Ht & HP).
  exists t. split; [exact Ht|]. eapply List.Forall_impl; eauto.
Qed.

Lemma emits_ret {A} (P : event -> Prop) (a : A) : emits P (@ret W A a).
Proof. intros st. exists []. simpl. now rewrite app_nil_r. Qed.

Lemma emits_raise {A} (P : event -> Prop) (p : panic) : emits P (@raise W A p).
Proof. intros st. exists []. simpl. now rewrite app_nil_r. Qed.

Lemma emits_out_of_fuel {A} (P : event -> Prop) : emits P (@out_of_fuel W A).
Proof. intros st. exists []. simpl. now rewrite app_nil_r. Qed.

Lemma emits_deref {A} (P : event -> Prop) (p : option A) : emits P (@deref W A p).
Proof. destruct p; [apply emits_ret | apply emits_raise]. Qed.

Lemma emits_log (P : event -> Prop) (line : string) :
  P (Log line) -> emits P (@log_line W line).
Proof. intros HP st. exists [Log line]. simpl. auto. Qed.

Lemma emits_call {I R} (P : event -> Prop) (ev : I -> event) (op : I -> W -> W * R)
    (input : I) :
  P (ev input) -> emits P (call ev op input).
Proof.
  intros HP st. exists [ev input]. unfold call.
  destruct (op input (world st)) as [w' r]. simpl. auto.
Qed.

Lemma emits_bind {A B} (P : event -> Prop) (m : M W A) (k : A -> M W B) :
  emits P m -> (forall a, emits P (k a)) -> emits P (bind m k).
Proof.
  intros Hm Hk st. unfold bind. destruct (Hm st) as (t & Ht & HP).
  destruct (m st) as [st1 [a| |]]; simpl in *; try (exists t; now auto).
  destruct (Hk a st1) as (t' & Ht' & HP').
  exists (t ++ t')%list. rewrite Ht', Ht, app_assoc. split; [reflexivity|].
  apply List.Forall_app. auto.
Qed.

Lemma emits_getParameterGroupFamily (groupName : string) (i : RDSInstance) :
  emits (provisioning_event (DbType i) groupName) (getParameterGroupFamily svc i).
Proof.
  unfold getParameterGroupFamily.
  destruct (negb _); [apply emits_ret|].
  destruct (String.eqb (DbVersion i) ""); [|apply emits_ret].
  apply emits_bind; [apply emits_call; reflexivity|].
  intros [out [e|]]; [apply emits_ret|].
  apply emits_bind; [apply emits_deref|]. intros info.
  destruct (DBEngineVersions info) as [|v0 rest]; [apply emits_raise|].
  apply emits_bind; [apply emits_deref|]. intros v.
  apply emits_bind; [apply emits_deref | intros family; apply emits_ret].
Qed.

Lemma emits_scanParameters (family paramName : string)
    (params : list (option RdsParameter)) :
  emits (lookup_event family) (@scanParameters W paramName params).
Proof.
  induction params as [|param rest IH]; simpl; [apply emits_ret|].
  apply emits_bind; [apply emits_deref|]. intros p.
  apply emits_bind; [apply emits_deref|]. intros name.
  destruct (String.eqb name paramName); [|exact IH].
  apply emits_bind; [apply emits_deref|]. intros value.
  apply emits_bind; [apply emits_log; exact I | intros _; apply emits_ret].
Qed.

(** Every request of the loop of the lookup is for a page of the defaults of
    the family it was started with: whatever the control plane answers, for
    every number of iterations and however the loop ends. *)
Lemma emits_engineDefaultsLoop (paramName : string) (fuel : nat) :
  forall input : DescribeEngineDefaultParametersInput,
    emits (lookup_event (edDBParameterGroupFamily input))
          (engineDefaultsLoop svc fuel paramName input).
Proof.
  induction fuel as [|fuel IH]; intros input; simpl; [apply emits_out_of_fuel|].
  apply emits_bind; [apply emits_call; reflexivity|].
  intros [result [e|]]; [apply emits_ret|].
  apply emits_bind; [apply emits_deref|]. intros res.
  apply emits_bind; [apply emits_deref|]. intros defaults.
  apply emits_bind; [apply emits_scanParameters|].
  intros [value|]; [apply emits_ret|].
  destruct (marker_is_empty (Marker defaults)); [apply emits_ret|].
  apply (IH {| edDBParameterGroupFamily := edDBParameterGroupFamily input;
               edMarker := Marker defaults |}).
Qed.

Lemma lookup_is_provisioning (engine groupName family : string) (e : event) :
  lookup_event family e -> provisioning_event engine groupName e.
Proof. destruct e; simpl; auto; contradiction. Qed.

Lemma emits_getDefaultEngineParameter (groupName paramName : string) (fuel : nat)
    (i : RDSInstance) :
  emits (provisioning_event (DbType i) groupName)
        (getDefaultEngineParameter svc fuel paramName i).
Proof.
  unfold getDefaultEngineParameter.
  apply emits_bind; [apply emits_getParameterGroupFamily|].
  intros [i1 [e|]]; [apply emits_ret|].
  apply emits_bind; [|intros res; apply emits_ret].
  eapply emits_weaken; [|apply emits_engineDefaultsLoop].
  apply lookup_is_provisioning.
Qed.

Lemma emits_getCustomParameters (groupName : string) (fuel : nat) (i : RDSInstance)
    (s : Settings) :
  emits (provisioning_event (DbType i) groupName) (getCustomParameters svc fuel i s).
Proof.
  unfold getCustomParameters.
  destruct (String.eqb (DbType i) "postgres"); [|apply emits_ret].
  destruct (EnablePgCron i); [|apply emits_ret].
  apply emits_bind.
  - unfold buildCustomSharePreloadLibrariesParam.
    apply emits_bind; [apply emits_getDefaultEngineParameter|].
    intros [i1 [value [e|]]]; apply emits_ret.
  - intros [i1 [value [e|]]]; apply emits_ret.
Qed.

Lemma emits_createOrModifyCustomParameterGroup (FormatDBName : RDSInstance -> string)
    (i : RDSInstance) (customparams : gmap string (gmap string string)) :
  emits (provisioning_event (DbType i) (pGroupPrefix +:+ FormatDBName i))
        (createOrModifyCustomParameterGroup svc FormatDBName i customparams).
Proof.
  unfold createOrModifyCustomParameterGroup, checkIfParameterGroupExists.
  apply emits_bind.
  - apply emits_bind; [apply emits_call; reflexivity|].
    intros [e|]; simpl.
    + apply emits_bind; [apply emits_ret | intros _; apply emits_ret].
    + apply emits_bind; [apply emits_log; exact I | intros _; apply emits_ret].
  - intros parameterGroupExists. apply emits_bind.
    + destruct parameterGroupExists; simpl; [apply emits_ret|].
      apply emits_bind; [apply emits_getParameterGroupFamily|].
      intros [i1 [e|]]; [apply emits_ret|].
      apply emits_bind; [apply emits_log; exact I|]. intros _.
      apply emits_bind; [apply emits_call; reflexivity|].
      intros [e|]; apply emits_ret.
    + intros [i1 [e|]]; [apply emits_ret|].
      apply emits_bind; [apply emits_call; reflexivity|].
      intros [e|]; apply emits_ret.
Qed.

End Footprint.

(** ** What an operation writes to the instance *)

Section Frame.

Context {W : Type}.
Variable svc : RDSAPI W.

Lemma getParameterGroupFamily_frame (i i' : RDSInstance) (st st' : state W)
    (err : option error) :
  getParameterGroupFamily svc i st = (st', Done (i', err)) ->
  family_update i i' /\ (err <> None -> i' = i /\ ParameterGroupFamily i = "").
Proof.
  unfold getParameterGroupFamily, family_update.
  destruct (String.eqb_spec (ParameterGroupFamily i) "") as [Hf|Hf]; simpl.
  - destruct (String.eqb (DbVersion i) "").
    + unfold bind, call.
      destruct (DescribeDBEngineVersions svc _ (world st))
        as [w' [[[[|[[[family|]]|] rest]]|] [e|]]]; simpl;
        intros [= <- <- <-] || discriminate; eauto; split; eauto; congruence.
    + intros [= <- <- <-]. split; eauto. congruence.
  - intros [= <- <- <-]. split; eauto. congruence.
Qed.

Lemma getDefaultEngineParameter_frame (fuel : nat) (paramName : string)
    (i i' : RDSInstance) (st st' : state W) (res : string * option error) :
  getDefaultEngineParameter svc fuel paramName i st = (st', Done (i', res)) ->
  family_update i i'.
Proof.
  unfold getDefaultEngineParameter, bind.
  destruct (getParameterGroupFamily svc i st) as [st1 [[i1 err]| |]] eqn:Hfam;
    try discriminate.
  destruct (getParameterGroupFamily_frame _ _ _ _ _ Hfam) as [Hup _].
  destruct err as [e|]; [intros [= <- <- <-]; exact Hup|].
  destruct (engineDefaultsLoop svc fuel paramName _ st1) as [st2 [r| |]];
    try discriminate.
  intros [= <- <- <-]. exact Hup.
Qed.

Lemma getCustomParameters_frame (fuel : nat) (i i' : RDSInstance) (s : Settings)
    (st st' : state W) (res : gmap string (gmap string string) * option error) :
  getCustomParameters svc fuel i s st = (st', Done (i', res)) ->
  family_update i i'.
Proof.
  unfold getCustomParameters.
  destruct (String.eqb (DbType i) "postgres");
    [|intros [= <- <- <-]; apply family_update_refl].
  destruct (EnablePgCron i); [|intros [= <- <- <-]; apply family_update_refl].
  unfold buildCustomSharePreloadLibrariesParam, bind.
  destruct (getDefaultEngineParameter svc fuel "shared_preload_libraries" i st)
    as [st1 [[i1 [value err]]| |]] eqn:Hlookup; try discriminate.
  pose proof (getDefaultEngineParameter_frame _ _ _ _ _ _ _ Hlookup) as Hup.
  destruct err as [e|]; simpl; intros [= <- <- <-]; exact Hup.
Qed.

End Frame.

Lemma family_update_DbType (i i' : RDSInstance) :
  family_update i i' -> DbType i' = DbType i.
Proof. intros [->|[f ->]]; reflexivity. Qed.

Section ProvisionFootprint.

Context {W : Type}.
Variable svc : RDSAPI W.
Variable FormatDBName : RDSInstance -> string.

Hypothesis FormatDBName_stable :
  forall i family, FormatDBName (set_ParameterGroupFamily i family) = FormatDBName i.

(** Sequencing, when what the first computation returns is known to satisfy
    [Q]. *)
Lemma emits_bind_returned {A B} (P : event -> Prop) (Q : A -> Prop) (m : M W A)
    (k : A -> M W B) :
  (forall st st' a, m st = (st', Done a) -> Q a) ->
  emits P m -> (forall a, Q a -> emits P (k a)) -> emits P (bind m k).
Proof.
  intros HQ Hm Hk st. unfold bind. destruct (Hm st) as (t & Ht & HP).
  destruct (m st) as [st1 [a| |]] eqn:Hrun; simpl in *; try (exists t; now auto).
  destruct (Hk a (HQ _ _ _ Hrun) st1) as (t' & Ht' & HP').
  exists (t ++ t')%list. rewrite Ht', Ht, app_assoc. split; [reflexivity|].
  apply List.Forall_app. auto.
Qed.

(** Provisioning asks the control plane only about the instance's engine and
    about one group, the one named by the prefix and the formatted database
    name: it never lists or deletes groups, and never describes, creates or
    modifies another group. This holds whatever the control plane answers and
    however the call ends. *)
Theorem ProvisionCustomParameterGroupIfNecessary_footprint (fuel : nat)
    (i : RDSInstance) (s : Settings) :
  emits (provisioning_event (DbType i) (pGroupPrefix +:+ FormatDBName i))
        (ProvisionCustomParameterGroupIfNecessary svc FormatDBName fuel i s).
Proof.
  unfold ProvisionCustomParameterGroupIfNecessary.
  destruct (negb _); [apply emits_ret|].
  apply (emits_bind_returned _ (fun r => family_update i (fst r))).
  - intros st st' [i1 res] Hrun. simpl.
    exact (getCustomParameters_frame svc fuel i i1 s st st' res Hrun).
  - apply emits_getCustomParameters.
  - intros [i1 [customRDSParameters [e|]]] Hup; simpl in Hup; [apply emits_ret|].
    apply emits_bind.
    + rewrite <- (family_update_DbType i i1 Hup),
              <- (FormatDBName_family FormatDBName FormatDBName_stable i i1 Hup).
      apply emits_createOrModifyCustomParameterGroup.
    + intros [i2 [pgroupName [e|]]]; [|apply emits_ret].
      apply emits_bind; [apply emits_log; exact I | intros _; apply emits_ret].
Qed.

End ProvisionFootprint.

Lemma ProvisionCustomParameterGroupIfNecessary_footprint_witness :
  exists t,
    trace (fst (ProvisionCustomParameterGroupIfNecessary Doubles.two_pages Database 2
                  orders {| EnableFunctionsFeature := true |} Doubles.start)) =
      (trace Doubles.start ++ t)%list /\
    List.Forall (provisioning_event (DbType orders) (pGroupPrefix +:+ Database orders)) t.
Proof.
  apply (ProvisionCustomParameterGroupIfNecessary_footprint Doubles.two_pages Database
           (fun i family => eq_refl) 2 orders {| EnableFunctionsFeature := true |}
           Doubles.start).
Defined.

Section SweepFootprint.

Context {W : Type}.
Variable svc : RDSAPI W.

Lemma emits_cleanupGroup (pgroup : option DBParameterGroup) :
  emits sweep_event (cleanupGroup svc pgroup).
Proof.
  unfold cleanupGroup.
  apply emits_bind; [apply emits_deref|]. intros g.
  apply emits_bind; [apply emits_deref|]. intros name.
  unfold regexp_Match_prefix.
  apply emits_bind; [apply emits_ret|]. intros _.
  destruct (String.prefix pGroupPrefix name); [|apply emits_ret].
  apply emits_bind; [apply emits_call; exact I|].
  intros [e|]; [|apply emits_log; exact I].
  apply emits_bind.
  - destruct e; [apply emits_ret | apply emits_raise | apply emits_raise].
  - intros code. destruct (negb _); [apply emits_log; exact I | apply emits_ret].
Qed.

Lemma emits_cleanupGroups (pgroups : list (option DBParameterGroup)) :
  emits sweep_event (cleanupGroups svc pgroups).
Proof.
  induction pgroups as [|pgroup rest IH]; simpl; [apply emits_ret|].
  apply emits_bind; [apply emits_cleanupGroup | intros _; exact IH].
Qed.

Lemma emits_pages (fuel : nat) :
  forall input,
    emits sweep_event
      (DescribeDBParameterGroupsPages svc fuel input (cleanupPage svc)).
Proof.
  induction fuel as [|fuel IH]; intros input; simpl; [apply emits_out_of_fuel|].
  apply emits_bind; [apply emits_call; exact I|].
  intros [page|e]; [|apply emits_ret].
  apply emits_bind.
  - unfold cleanupPage.
    apply emits_bind; [apply emits_cleanupGroups | intros _; apply emits_ret].
  - intros continue. destruct (continue && negb _); [apply IH | apply emits_ret].
Qed.

(** The sweep only lists groups, deletes groups and writes to the log: it
    never creates or modifies a group and never reads engine versions or
    defaults, whatever the control plane answers and however it ends. *)
Theorem cleanupCustomParameterGroups_footprint (fuel : nat) :
  emits sweep_event (cleanupCustomParameterGroups svc fuel).
Proof.
  unfold cleanupCustomParameterGroups.
  apply emits_bind; [apply emits_pages|].
  intros [e|]; [apply emits_log; exact I | apply emits_ret].
Qed.

End SweepFootprint.

(** ** The derived parameters *)

Section DerivedParameters.

Context {W : Type}.
Variable svc : RDSAPI W.

Lemma postgres_preload (value : string) :
  set_param "postgres" "shared_preload_libraries" value (<["postgres" := ∅]> ∅) =
    {[ "postgres" := {[ "shared_preload_libraries" := value ]} ]}.
Proof.
  unfold set_param. rewrite alter_insert_eq, !insert_empty. reflexivity.
Qed.

Lemma getCustomParameters_postgres (fuel : nat) (i : RDSInstance) (s : Settings)
    (st : state W) :
  DbType i = "postgres" -> EnablePgCron i = true ->
  getCustomParameters svc fuel i s st =
    match getDefaultEngineParameter svc fuel "shared_preload_libraries" i st with
    | (st', Done (i1, (_, Some e))) => (st', Done (i1, (∅, Some e)))
    | (st', Done (i1, (value, None))) =>
        (st', Done (i1, ({[ "postgres" :=
                              {[ "shared_preload_libraries" :=
                                   if String.eqb value "" then pgCronLibraryName
                                   else pgCronLibraryName +:+ "," +:+ value ]} ]},
                         None)))
    | (st', Panicked p) => (st', Panicked p)
    | (st', OutOfFuel) => (st', OutOfFuel)
    end.
Proof.
  intros Hengine Hcron. unfold getCustomParameters. rewrite Hengine, Hcron. simpl.
  unfold buildCustomSharePreloadLibrariesParam, bind.
  destruct (getDefaultEngineParameter svc fuel "shared_preload_libraries" i st)
    as [st' [[i1 [value [e|]]]| |]]; simpl; try reflexivity.
  rewrite postgres_preload.
  destruct (String.eqb value ""); reflexivity.
Qed.

(** For a postgres instance with pg-cron whose family resolves without
    error, the derived set is the single parameter
    [shared_preload_libraries]: [pg_cron] alone when the catalogue of engine
    defaults has no such parameter, or has it with an empty value, and
    [pg_cron], a comma and the default's value otherwise. *)
Theorem getCustomParameters_postgres_preload (i i1 : RDSInstance) (s : Settings)
    (st st1 : state W) :
  DbType i = "postgres" -> EnablePgCron i = true ->
  getParameterGroupFamily svc i st = (st1, Done (i1, None)) ->
  (forall k fuel : nat,
     absent_through svc k "shared_preload_libraries" (first_request i1) (world st1) ->
     k <= fuel ->
     exists st',
       getCustomParameters svc fuel i s st =
         (st', Done (i1, ({[ "postgres" :=
                               {[ "shared_preload_libraries" := "pg_cron" ]} ]}, None)))) /\
  (forall (k fuel : nat) (value : string),
     found_on_page svc k "shared_preload_libraries" value (first_request i1) (world st1) ->
     k <= fuel ->
     exists st',
       getCustomParameters svc fuel i s st =
         (st', Done (i1, ({[ "postgres" :=
                               {[ "shared_preload_libraries" :=
                                    if String.eqb value "" then "pg_cron"
                                    else "pg_cron," +:+ value ]} ]}, None)))).
Proof.
  intros Hengine Hcron Hfamily. split.
  - intros k fuel Habs Hfuel.
    destruct (engineDefaultsLoop_absent svc "shared_preload_libraries" k fuel _ st1
                Habs Hfuel) as (st' & Hrun & _).
    exists st'.
    rewrite (getCustomParameters_postgres fuel i s st Hengine Hcron),
            (getDefaultEngineParameter_resolved svc _ _ _ _ _ _ Hfamily), Hrun.
    reflexivity.
  - intros k fuel value Hfound Hfuel.
    destruct (engineDefaultsLoop_found svc "shared_preload_libraries" value k fuel _ st1
                Hfound Hfuel) as (st' & Hrun & _).
    exists st'.
    rewrite (getCustomParameters_postgres fuel i s st Hengine Hcron),
            (getDefaultEngineParameter_resolved svc _ _ _ _ _ _ Hfamily), Hrun.
    reflexivity.
Qed.

Lemma getCustomParameters_other_engine (fuel : nat) (i : RDSInstance) (s : Settings)
    (st : state W) :
  DbType i <> "mysql" -> DbType i <> "postgres" ->
  getCustomParameters svc fuel i s st = (st, Done (i, (∅, None))).
Proof.
  intros Hm Hp. unfold getCustomParameters.
  destruct (String.eqb_spec (DbType i) "mysql"); [congruence|].
  destruct (String.eqb_spec (DbType i) "postgres"); [congruence | reflexivity].
Qed.

Lemma getCustomParameters_postgres_plain (fuel : nat) (i : RDSInstance) (s : Settings)
    (st : state W) :
  DbType i = "postgres" -> EnablePgCron i = false ->
  getCustomParameters svc fuel i s st = (st, Done (i, ({[ "postgres" := ∅ ]}, None))).
Proof.
  intros Hp Hcron. unfold getCustomParameters. rewrite Hp, Hcron. simpl.
  now rewrite insert_empty.
Qed.

Lemma getCustomParameters_entries (fuel : nat) (i i' : RDSInstance) (s : Settings)
    (st st' : state W) (customRDSParameters : gmap string (gmap string string)) :
  getCustomParameters svc fuel i s st = (st', Done (i', (customRDSParameters, None))) ->
  (forall engine, engine <> DbType i -> customRDSParameters !! engine = None) /\
  (needCustomParameters i s = true ->
     exists params, customRDSParameters !! DbType i = Some params /\ params <> ∅).
Proof.
  destruct (String.eqb_spec (DbType i) "mysql") as [Hm|Hm].
  - rewrite (getCustomParameters_mysql svc fuel i s st Hm). intros [= <- <- <-].
    split.
    + intros engine Hne. rewrite Hm in Hne.
      unfold mysqlParameters, set_param.
      destruct (EnableFunctions i && EnableFunctionsFeature s);
        destruct (negb _);
        rewrite ?lookup_alter_ne, lookup_insert_ne by congruence; apply lookup_empty.
    + intros _. rewrite Hm, mysqlParameters_lookup. eexists. split; [reflexivity|].
      cbv zeta. destruct (String.eqb (BinaryLogFormat i) "");
        [apply map_non_empty_singleton | apply insert_non_empty].
  - destruct (String.eqb_spec (DbType i) "postgres") as [Hp|Hp].
    + destruct (EnablePgCron i) eqn:Hcron.
      * rewrite (getCustomParameters_postgres fuel i s st Hp Hcron).
        destruct (getDefaultEngineParameter svc fuel "shared_preload_libraries" i st)
          as [st1 [[i1 [value [e|]]]| |]]; try discriminate.
        intros [= <- <- <-]. split.
        -- intros engine Hne. rewrite Hp in Hne.
           apply lookup_singleton_ne. congruence.
        -- intros _. rewrite Hp, lookup_singleton_eq. eexists. split; [reflexivity|].
           apply map_non_empty_singleton.
      * rewrite (getCustomParameters_postgres_plain fuel i s st Hp Hcron).
        intros [= <- <- <-]. split.
        -- intros engine Hne. rewrite Hp in Hne.
           apply lookup_singleton_ne. congruence.
        -- unfold needCustomParameters. rewrite Hp, Hcron. simpl.
           rewrite !andb_false_r. discriminate.
    + rewrite (getCustomParameters_other_engine fuel i s st Hm Hp).
      intros [= <- <- <-]. split; [intros; apply lookup_empty|].
      unfold needCustomParameters.
      destruct (String.eqb_spec (DbType i) "mysql"); [congruence|].
      destruct (String.eqb_spec (DbType i) "postgres"); [congruence|].
      rewrite !andb_false_r. discriminate.
Qed.

(** Whenever the derivation succeeds, the set it returns has no entry for an
    engine other than the instance's own, and when [needCustomParameters]
    holds its entry for the instance's engine has at least one parameter: the
    caller, which applies the entry of the instance's engine, loses nothing
    and never applies an empty list when a custom group is needed. *)
Theorem getCustomParameters_entry (fuel : nat) (i i' : RDSInstance) (s : Settings)
    (st st' : state W) (customRDSParameters : gmap string (gmap string string)) :
  getCustomParameters svc fuel i s st = (st', Done (i', (customRDSParameters, None))) ->
  (forall engine, engine <> DbType i -> customRDSParameters !! engine = None) /\
  (needCustomParameters i s = true ->
     exists params, customRDSParameters !! DbType i = Some params /\ params <> ∅).
Proof. apply getCustomParameters_entries. Qed.

(** An instance of an engine other than mysql and postgres derives the empty
    set, and a postgres instance without pg-cron an empty entry for postgres;
    neither asks the control plane anything nor writes to the instance. *)
Theorem getCustomParameters_without_requests (fuel : nat) (i : RDSInstance)
    (s : Settings) (st : state W) :
  (DbType i <> "mysql" -> DbType i <> "postgres" ->
     getCustomParameters svc fuel i s st = (st, Done (i, (∅, None)))) /\
  (DbType i = "postgres" -> EnablePgCron i = false ->
     getCustomParameters svc fuel i s st =
       (st, Done (i, ({[ "postgres" := ∅ ]}, None)))).
Proof.
  split; [apply getCustomParameters_other_engine | apply getCustomParameters_postgres_plain].
Qed.

End DerivedParameters.

(** The list of parameters applied to a group holds exactly the entries of
    the derived set, each once, and each with the apply method
    "immediate". *)
Theorem parameters_of_entries (m : gmap string string) :
  (forall name value,
     m !! name = Some value <->
     In (Some {| ApplyMethod := Some "immediate"; ParameterName := Some name;
                 ParameterValue := Some value |}) (parameters_of m)) /\
  length (parameters_of m) = size m /\
  List.NoDup (parameters_of m) /\
  List.Forall (fun param => exists p, param = Some p /\ ApplyMethod p = Some "immediate")
              (parameters_of m).
Proof.
  unfold parameters_of. split; [|split; [|split]].
  - intros name value. rewrite <- list_elem_of_In, list_elem_of_fmap. split.
    + intros H. exists (name, value). split; [reflexivity|].
      now apply elem_of_map_to_list.
    + intros ([k v] & Heq & Hin). simpl in Heq. injection Heq as -> ->.
      now apply elem_of_map_to_list.
  - now rewrite length_fmap, length_map_to_list.
  - apply NoDup_ListNoDup, NoDup_fmap_2; [|apply NoDup_map_to_list].
    intros [k v] [k' v'] Heq. simpl in Heq. now injection Heq as -> ->.
  - apply List.Forall_forall. intros param Hin.
    apply list_elem_of_In, list_elem_of_fmap in Hin as (kv & -> & _). eauto.
Qed.

(** ** The outcomes of provisioning *)

Section Outcomes.

Context {W : Type}.
Variable svc : RDSAPI W.
Variable FormatDBName : RDSInstance -> string.

Lemma getParameterGroupFamily_requests (i : RDSInstance) :
  emits (versions_event (DbType i)) (getParameterGroupFamily svc i).
Proof.
  unfold getParameterGroupFamily.
  destruct (negb _); [apply emits_ret|].
  destruct (String.eqb (DbVersion i) ""); [|apply emits_ret].
  apply emits_bind; [apply emits_call; reflexivity|].
  intros [out [e|]]; [apply emits_ret|].
  apply emits_bind; [apply emits_deref|]. intros info.
  destruct (DBEngineVersions info) as [|v0 rest]; [apply emits_raise|].
  apply emits_bind; [apply emits_deref|]. intros v.
  apply emits_bind; [apply emits_deref | intros family; apply emits_ret].
Qed.

Lemma versions_no_group_change (engine : string) (t : list event) :
  List.Forall (versions_event engine) t -> no_group_change t = true.
Proof.
  induction 1 as [|e t He _ IH]; [reflexivity|]. unfold versions_event in He.
  subst e. exact IH.
Qed.

(** The runs of [createOrModifyCustomParameterGroup] that return, by the
    step at which they end; [tf] are the requests of the family resolver. *)
Lemma createOrModify_cases (i i' : RDSInstance)
    (customparams : gmap string (gmap string string)) (st st' : state W)
    (name : string) (err : option error) :
  createOrModifyCustomParameterGroup svc FormatDBName i customparams st =
    (st', Done (i', (name, err))) ->
  let groupName := pGroupPrefix +:+ FormatDBName i in
  let check := CallDescribeDBParameters
                 {| ddpDBParameterGroupName := groupName; ddpMaxRecords := 20;
                    ddpSource := "system" |} in
  let apply_request :=
    CallModifyDBParameterGroup
      {| mgDBParameterGroupName := groupName;
         mgParameters := parameters_of (default ∅ (customparams !! DbType i)) |} in
  let create_request :=
    CallCreateDBParameterGroup
      {| cgDBParameterGroupFamily := ParameterGroupFamily i';
         cgDBParameterGroupName := groupName;
         cgDescription := "aws broker parameter group for " +:+ FormatDBName i' |} in
  let creating :=
    Log ("creating a parameter group named " +:+ groupName +:+
         " in the family of " +:+ ParameterGroupFamily i') in
  family_update i i' /\
  exists tf, List.Forall (versions_event (DbType i)) tf /\
    ((i' = i /\
      trace st' = (trace st ++ [check; Log (groupName +:+ " parameter group already exists");
                                apply_request])%list /\
      ((err = None /\ name = groupName) \/ (exists e, err = Some e /\ name = "")))
     \/
     (exists e,
        err = Some (WrapErr "encounted error getting parameter group family" e) /\
        name = "" /\ trace st' = (trace st ++ check :: tf)%list)
     \/
     (exists e,
        err = Some (WrapErr "encounted error when creating database" e) /\
        name = "" /\
        trace st' = (trace st ++ check :: tf ++ [creating; create_request])%list)
     \/
     (trace st' = (trace st ++ check :: tf ++ [creating; create_request; apply_request])%list /\
      ((err = None /\ name = groupName) \/ (exists e, err = Some e /\ name = "")))).
Proof.
  cbv zeta.
  unfold createOrModifyCustomParameterGroup, checkIfParameterGroupExists, bind, call.
  destruct (DescribeDBParameters svc _ (world st)) as [w1 [e0|]]; simpl.
  - match goal with
    | |- context [getParameterGroupFamily svc i ?s] =>
        destruct (getParameterGroupFamily_requests i s) as (tf & Htf & Hversions);
        destruct (getParameterGroupFamily svc i s) as [st1 [[i1 [e|]]| |]] eqn:Hfam
    end; simpl in *; try discriminate.
    + intros [= <- <- <- <-].
      split; [exact (proj1 (getParameterGroupFamily_frame _ _ _ _ _ _ Hfam))|].
      exists tf. split; [exact Hversions|]. right. left.
      exists e. rewrite Htf, <- app_assoc. auto.
    + pose proof (proj1 (getParameterGroupFamily_frame _ _ _ _ _ _ Hfam)) as Hup.
      destruct (CreateDBParameterGroup svc _ (world st1)) as [w2 [e|]]; simpl.
      * intros [= <- <- <- <-]. split; [exact Hup|].
        exists tf. split; [exact Hversions|].
        right. right. left. exists e. simpl.
        rewrite Htf, <- !app_assoc. auto.
      * rewrite (family_update_DbType _ _ Hup).
        destruct (ModifyDBParameterGroup svc _ w2) as [w3 [e|]]; simpl;
          intros [= <- <- <- <-]; (split; [exact Hup|]);
          exists tf; (split; [exact Hversions|]);
          right; right; right; simpl; rewrite Htf, <- !app_assoc; simpl; eauto.
  - destruct (ModifyDBParameterGroup svc _ w1) as [w3 [e|]]; simpl;
      intros [= <- <- <- <-]; (split; [apply family_update_refl|]);
      exists []; (split; [constructor|]); left; rewrite <- !app_assoc; simpl; eauto 6.
Qed.

End Outcomes.

Section ProvisionOutcomes.

Context {W : Type}.
Variable svc : RDSAPI W.
Variable FormatDBName : RDSInstance -> string.

Lemma no_modify_request_app (a b : list event) :
  no_modify_request (a ++ b) = no_modify_request a && no_modify_request b.
Proof. apply forallb_app. Qed.

Lemma no_group_change_app (a b : list event) :
  no_group_change (a ++ b) = no_group_change a && no_group_change b.
Proof. apply forallb_app. Qed.

Lemma no_group_change_no_modify (t : list event) :
  no_group_change t = true -> no_modify_request t = true.
Proof.
  unfold no_group_change, no_modify_request.
  induction t as [|e t IH]; simpl; [reflexivity|].
  intros H. apply andb_true_iff in H as [He Ht]. rewrite (IH Ht), andb_true_r.
  destruct e; simpl in *; congruence.
Qed.

Lemma applies_app (groupName : string) (parameters : list (option RdsParameter))
    (a b : list event) :
  applies groupName parameters b -> applies groupName parameters (a ++ b).
Proof. intros [t0 ->]. exists (a ++ t0)%list. now rewrite app_assoc. Qed.


Lemma derivation_getParameterGroupFamily (i : RDSInstance) :
  emits derivation_event (getParameterGroupFamily svc i).
Proof.
  eapply emits_weaken; [|apply (getParameterGroupFamily_requests svc i)].
  intros e ->. exact I.
Qed.

Lemma derivation_getCustomParameters (fuel : nat) (i : RDSInstance) (s : Settings) :
  emits derivation_event (getCustomParameters svc fuel i s).
Proof.
  unfold getCustomParameters.
  destruct (String.eqb (DbType i) "postgres"); [|apply emits_ret].
  destruct (EnablePgCron i); [|apply emits_ret].
  apply emits_bind; [|intros [i1 [value [e|]]]; apply emits_ret].
  unfold buildCustomSharePreloadLibrariesParam.
  apply emits_bind; [|intros [i1 [value [e|]]]; apply emits_ret].
  unfold getDefaultEngineParameter.
  apply emits_bind; [apply derivation_getParameterGroupFamily|].
  intros [i1 [e|]]; [apply emits_ret|].
  apply emits_bind; [|intros res; apply emits_ret].
  eapply emits_weaken; [|apply emits_engineDefaultsLoop].
  intros [] H; simpl in *; auto.
Qed.

Lemma derivation_no_group_change (t : list event) :
  List.Forall derivation_event t -> no_group_change t = true.
Proof.
  induction 1 as [|e t He _ IH]; [reflexivity|].
  unfold no_group_change in *. simpl. rewrite IH, andb_true_r.
  destruct e; simpl in *; auto; contradiction.
Qed.

Lemma parameters_of_non_empty (m : gmap string string) :
  m <> ∅ -> parameters_of m <> [].
Proof.
  intros Hm Hnil. apply Hm, map_to_list_empty_iff.
  unfold parameters_of in Hnil. now apply fmap_nil_inv in Hnil.
Qed.

Hypothesis FormatDBName_stable :
  forall i family, FormatDBName (set_ParameterGroupFamily i family) = FormatDBName i.

(** A call of [ProvisionCustomParameterGroupIfNecessary] that returns ends in
    one of four ways. No custom group is needed: the empty name, no error,
    nothing asked and nothing written. Success: the name of the instance's
    group, after a last request that applies a list of at least one
    parameter to that group. The derivation of the parameters failed: its
    error wrapped, the empty name, and no group created or modified. The
    group could not be created or modified: the error wrapped, the empty
    name, and the error's text as the last line of the log. *)
Theorem ProvisionCustomParameterGroupIfNecessary_outcomes (fuel : nat)
    (i i' : RDSInstance) (s : Settings) (st st' : state W) (name : string)
    (err : option error) :
  ProvisionCustomParameterGroupIfNecessary svc FormatDBName fuel i s st =
    (st', Done (i', (name, err))) ->
  let groupName := pGroupPrefix +:+ FormatDBName i in
  exists t, trace st' = (trace st ++ t)%list /\
    ((needCustomParameters i s = false /\ err = None /\ name = "" /\
      st' = st /\ i' = i) \/
     (needCustomParameters i s = true /\ err = None /\ name = groupName /\
      exists parameters, parameters <> [] /\ applies groupName parameters t) \/
     (needCustomParameters i s = true /\
      exists e,
        err = Some (WrapErr "encountered error getting custom parameters" e) /\
        name = "" /\ no_group_change t = true) \/
     (needCustomParameters i s = true /\
      exists e t0,
        err = Some (WrapErr "encountered error applying parameter group" e) /\
        name = "" /\ t = (t0 ++ [Log (Error_ e)])%list)).
Proof.
  cbv zeta. unfold ProvisionCustomParameterGroupIfNecessary.
  destruct (needCustomParameters i s) eqn:Hneed; simpl.
  2: { intros [= <- <- <- <-]. exists []. rewrite app_nil_r.
       split; [reflexivity|]. left. auto. }
  unfold bind.
  destruct (derivation_getCustomParameters fuel i s st) as (t1 & Ht1 & Hderive).
  destruct (getCustomParameters svc fuel i s st) as [st1 [[i1 [m [e|]]]| |]] eqn:Hcustom;
    simpl in *; try discriminate.
  - intros [= <- <- <- <-]. exists t1. split; [exact Ht1|].
    right. right. left. split; [reflexivity|]. exists e.
    repeat split. now apply derivation_no_group_change.
  - pose proof (getCustomParameters_frame svc _ _ _ _ _ _ _ Hcustom) as Hup.
    destruct (createOrModifyCustomParameterGroup svc FormatDBName i1 m st1)
      as [st2 [[i2 [pgroupName [e|]]]| |]] eqn:Hgroup; simpl; try discriminate.
    + intros [= <- <- <- <-].
      destruct (emits_createOrModifyCustomParameterGroup svc FormatDBName i1 m st1)
        as (t2 & Ht2 & _).
      rewrite Hgroup in Ht2. simpl in Ht2.
      exists (t1 ++ t2 ++ [Log (Error_ e)])%list. simpl.
      split; [rewrite Ht2, Ht1, <- !app_assoc; reflexivity|].
      right. right. right. split; [reflexivity|].
      exists e, (t1 ++ t2)%list. repeat split. now rewrite <- app_assoc.
    + intros [= <- <- <- <-].
      destruct (createOrModify_cases svc FormatDBName _ _ _ _ _ _ _ Hgroup)
        as (_ & tf & _ & Hcases). cbv zeta in Hcases.
      rewrite (family_update_DbType _ _ Hup),
              (FormatDBName_family FormatDBName FormatDBName_stable _ _ Hup) in Hcases.
      destruct (proj2 (getCustomParameters_entries svc _ _ _ _ _ _ _ Hcustom) Hneed)
        as (params & Hentry & Hparams).
      rewrite Hentry in Hcases. simpl in Hcases.
      pose proof (parameters_of_non_empty params Hparams) as Hlist.
      assert (Hend : exists t2, trace st2 = (trace st1 ++ t2)%list /\
                pgroupName = pGroupPrefix +:+ FormatDBName i /\
                applies (pGroupPrefix +:+ FormatDBName i) (parameters_of params) t2).
      { destruct Hcases as [(_ & Htrace & Hres)|[(e & He & _)|
                            [(e & He & _)|(Htrace & Hres)]]]; try discriminate.
        - destruct Hres as [[_ ->]|(e & He & _)]; [|discriminate].
          eexists. split; [exact Htrace|]. split; [reflexivity|].
          eexists [_; _]. reflexivity.
        - destruct Hres as [[_ ->]|(e & He & _)]; [|discriminate].
          eexists. split; [exact Htrace|]. split; [reflexivity|].
          eexists (_ :: tf ++ [_; _])%list. simpl. rewrite <- app_assoc. reflexivity. }
      destruct Hend as (t2 & Ht2 & -> & Happlies).
      exists (t1 ++ t2)%list. split; [rewrite Ht2, Ht1, <- app_assoc; reflexivity|].
      right. left. repeat split.
      exists (parameters_of params). split; [exact Hlist|].
      now apply applies_app.
Qed.

End ProvisionOutcomes.


Lemma ProvisionCustomParameterGroupIfNecessary_outcomes_witness :
  exists t, trace orders_provisioned = (trace Doubles.start ++ t)%list /\
    ((needCustomParameters orders {| EnableFunctionsFeature := true |} = false /\
      @None error = None /\ "cg-aws-broker-orders" = "" /\
      orders_provisioned = Doubles.start /\
      set_ParameterGroupFamily orders "postgres12.5" = orders) \/
     (needCustomParameters orders {| EnableFunctionsFeature := true |} = true /\
      @None error = None /\ "cg-aws-broker-orders" = pGroupPrefix +:+ Database orders /\
      exists parameters, parameters <> [] /\
        applies (pGroupPrefix +:+ Database orders) parameters t) \/
     (needCustomParameters orders {| EnableFunctionsFeature := true |} = true /\
      exists e,
        None = Some (WrapErr "encountered error getting custom parameters" e) /\
        "cg-aws-broker-orders" = "" /\ no_group_change t = true) \/
     (needCustomParameters orders {| EnableFunctionsFeature := true |} = true /\
      exists e t0,
        None = Some (WrapErr "encountered error applying parameter group" e) /\
        "cg-aws-broker-orders" = "" /\ t = (t0 ++ [Log (Error_ e)])%list)).
Proof.
  apply (ProvisionCustomParameterGroupIfNecessary_outcomes Doubles.two_pages Database
           (fun i family => eq_refl) 2 orders
           (set_ParameterGroupFamily orders "postgres12.5")
           {| EnableFunctionsFeature := true |} Doubles.start orders_provisioned
           "cg-aws-broker-orders" None).
  vm_compute. reflexivity.
Defined.

Lemma getCustomParameters_postgres_preload_witness :
  (exists st',
     getCustomParameters Doubles.quiet 1 pinned no_settings Doubles.start =
       (st', Done (pinned_resolved,
                   ({[ "postgres" := {[ "shared_preload_libraries" := "pg_cron" ]} ]},
                    None)))) /\
  (exists st',
     getCustomParameters Doubles.two_pages 2 pinned no_settings Doubles.start =
       (st', Done (pinned_resolved,
                   ({[ "postgres" :=
                         {[ "shared_preload_libraries" :=
                              if String.eqb "pg_stat_statements" "" then "pg_cron"
                              else "pg_cron," +:+ "pg_stat_statements" ]} ]}, None)))).
Proof.
  split.
  - apply (proj1 (getCustomParameters_postgres_preload Doubles.quiet pinned
                    pinned_resolved no_settings Doubles.start Doubles.start
                    eq_refl eq_refl eq_refl) 1 1); [|lia].
    simpl. eexists _, _. split; [reflexivity|]. split; [apply List.Forall_nil|].
    reflexivity.
  - apply (proj2 (getCustomParameters_postgres_preload Doubles.two_pages pinned
                    pinned_resolved no_settings Doubles.start Doubles.start
                    eq_refl eq_refl eq_refl) 2 2 "pg_stat_statements" two_pages_found).
    lia.
Defined.

Lemma getCustomParameters_entry_witness :
  (forall engine, engine <> DbType db1 ->
     mysqlParameters db1 no_settings ∅ !! engine = None) /\
  (needCustomParameters db1 no_settings = true ->
     exists params,
       mysqlParameters db1 no_settings ∅ !! DbType db1 = Some params /\ params <> ∅).
Proof.
  apply (getCustomParameters_entry Doubles.quiet 0 db1 db1 no_settings Doubles.start
           Doubles.start (mysqlParameters db1 no_settings ∅)).
  reflexivity.
Defined.

Lemma getCustomParameters_without_requests_witness :
  getCustomParameters Doubles.endless 0 (instance_of "oracle-se2" "ROW" true true)
    {| EnableFunctionsFeature := true |} Doubles.start =
    (Doubles.start, Done (instance_of "oracle-se2" "ROW" true true, (∅, None))) /\
  getCustomParameters Doubles.endless 0 (instance_of "postgres" "" false false)
    no_settings Doubles.start =
    (Doubles.start,
     Done (instance_of "postgres" "" false false, ({[ "postgres" := ∅ ]}, None))).
Proof.
  split.
  - apply (proj1 (getCustomParameters_without_requests Doubles.endless 0
                    (instance_of "oracle-se2" "ROW" true true)
                    {| EnableFunctionsFeature := true |} Doubles.start));
      discriminate.
  - apply (proj2 (getCustomParameters_without_requests Doubles.endless 0
                    (instance_of "postgres" "" false false) no_settings Doubles.start));
      reflexivity.
Defined.

(** ** More on the family resolver and the lookup *)

Section ResolverAndLookup.

Context {W : Type}.
Variable svc : RDSAPI W.

(** The family resolver makes at most one request, the one for the default
    version of the instance's engine, and only when the instance has neither
    a family nor a version; it writes nothing but the family, and nothing at
    all when it returns an error. *)
Theorem getParameterGroupFamily_effects (i : RDSInstance) (st : state W) :
  (trace (fst (getParameterGroupFamily svc i st)) = trace st \/
   (trace (fst (getParameterGroupFamily svc i st)) =
      (trace st ++ [CallDescribeDBEngineVersions
                      {| DefaultOnly := true; Engine := DbType i |}])%list /\
    ParameterGroupFamily i = "" /\ DbVersion i = "")) /\
  (forall i' err,
     snd (getParameterGroupFamily svc i st) = Done (i', err) ->
     family_update i i' /\ (err <> None -> i' = i)).
Proof.
  split.
  - unfold getParameterGroupFamily.
    destruct (String.eqb_spec (ParameterGroupFamily i) "") as [Hf|Hf]; simpl;
      [|now left].
    destruct (String.eqb_spec (DbVersion i) "") as [Hv|Hv]; [|now left].
    right. split; [|now split]. unfold bind, call.
    destruct (DescribeDBEngineVersions svc _ (world st))
      as [w' [[[[|[[[family|]]|] rest]]|] [e|]]]; reflexivity.
  - intros i' err Hrun.
    destruct (getParameterGroupFamily svc i st) as [st' r] eqn:H. simpl in Hrun.
    subst r. destruct (getParameterGroupFamily_frame svc _ _ _ _ _ H) as [Hup Herr].
    split; [exact Hup|]. intros Hne. exact (proj1 (Herr Hne)).
Qed.

(** A failed request for a page of engine defaults ends the lookup: the
    error of the request is returned as it is, with the empty string, after
    exactly as many requests as pages were asked for. *)
Theorem getDefaultEngineParameter_request_error (paramName : string) (e : error)
    (i i1 : RDSInstance) (st st1 : state W) (k fuel : nat) :
  getParameterGroupFamily svc i st = (st1, Done (i1, None)) ->
  fails_on_page svc k paramName e (first_request i1) (world st1) -> k <= fuel ->
  exists st',
    getDefaultEngineParameter svc fuel paramName i st = (st', Done (i1, ("", Some e))) /\
    page_requests (trace st') = page_requests (trace st1) + k.
Proof.
  intros Hfamily Hfails Hfuel.
  rewrite (getDefaultEngineParameter_resolved svc _ _ _ _ _ _ Hfamily).
  assert (Hloop : forall k fuel input st0,
            fails_on_page svc k paramName e input (world st0) -> k <= fuel ->
            exists st',
              engineDefaultsLoop svc fuel paramName input st0 =
                (st', Done ("", Some e)) /\
              page_requests (trace st') = page_requests (trace st0) + k).
  { clear. induction k as [|k IH]; intros fuel input st0 Hfails Hfuel;
      [destruct Hfails|].
    destruct fuel as [|fuel]; [lia|].
    rewrite engineDefaultsLoop_step. simpl in Hfails. destruct k as [|k].
    - destruct Hfails as (w' & out & Hcall). rewrite Hcall.
      eexists. split; [reflexivity|]. simpl.
      rewrite page_requests_app. reflexivity.
    - destruct Hfails as (w' & defaults & Hcall & Hnone & Hmarker & Hrest).
      rewrite Hcall. simpl.
      rewrite (scanParameters_no_match _ _ _ Hnone), Hmarker.
      match goal with
      | |- context [engineDefaultsLoop svc fuel paramName ?inp ?s] =>
          destruct (IH fuel inp s) as (st' & Hrun & Hcount); [exact Hrest | lia |]
      end.
      rewrite Hrun. eexists. split; [reflexivity|].
      rewrite Hcount. simpl. rewrite page_requests_app.
      unfold page_requests; simpl. lia. }
  destruct (Hloop k fuel _ st1 Hfails Hfuel) as (st' & Hrun & Hcount).
  rewrite Hrun. eauto.
Qed.

(** When the lookup returns, every request it made is the one for the
    default version of the instance's engine or a request for a page of the
    defaults of the family the instance is returned with. *)
Theorem getDefaultEngineParameter_family (fuel : nat) (paramName : string)
    (i i1 : RDSInstance) (st st' : state W) (res : string * option error) :
  getDefaultEngineParameter svc fuel paramName i st = (st', Done (i1, res)) ->
  exists t, trace st' = (trace st ++ t)%list /\
    List.Forall (fun e => versions_event (DbType i) e \/
                          lookup_event (ParameterGroupFamily i1) e) t.
Proof.
  unfold getDefaultEngineParameter, bind.
  destruct (getParameterGroupFamily_requests svc i st) as (tf & Htf & Hversions).
  destruct (getParameterGroupFamily svc i st) as [st1 [[i2 [e|]]| |]];
    simpl in *; try discriminate.
  - intros [= <- <- <-]. exists tf. split; [exact Htf|].
    eapply List.Forall_impl; [|exact Hversions]. auto.
  - destruct (emits_engineDefaultsLoop svc paramName fuel
                {| edDBParameterGroupFamily := ParameterGroupFamily i2;
                   edMarker := None |} st1) as (tl & Htl & Hlookup).
    destruct (engineDefaultsLoop svc fuel paramName _ st1) as [st2 [r| |]];
      simpl in *; try discriminate.
    intros [= <- <- <-]. exists (tf ++ tl)%list.
    split; [rewrite Htl, Htf, app_assoc; reflexivity|].
    apply List.Forall_app. split.
    + eapply List.Forall_impl; [|exact Hversions]. auto.
    + eapply List.Forall_impl; [|exact Hlookup]. auto.
Qed.

(** A page that comes without error but is not well formed makes the lookup
    fault instead of returning an error: a response without its page, or a
    parameter without a name (or the requested parameter without a value)
    that is met before any match. *)
Theorem engineDefaultsLoop_malformed_page (fuel : nat) (paramName : string)
    (input : DescribeEngineDefaultParametersInput) (st : state W) (w' : W)
    (out : option DescribeEngineDefaultParametersOutput) :
  DescribeEngineDefaultParameters svc input (world st) = (w', (out, None)) ->
  out = None \/ out = Some {| engineDefaults := None |} \/
  (exists defaults pre bad post,
     out = Some {| engineDefaults := Some defaults |} /\
     edParameters defaults = (pre ++ bad :: post)%list /\
     no_match paramName pre /\
     (bad = None \/
      exists p, bad = Some p /\
        (ParameterName p = None \/
         (ParameterName p = Some paramName /\ ParameterValue p = None)))) ->
  snd (engineDefaultsLoop svc (S fuel) paramName input st) = Panicked NilDereference.
Proof.
  intros Hcall Hbad. rewrite engineDefaultsLoop_step, Hcall.
  destruct Hbad as [->|[->|(defaults & pre & bad & post & -> & Hparams & Hpre & Hbad)]];
    [reflexivity | reflexivity |]. simpl. rewrite Hparams. clear Hparams.
  assert (Hscan : forall st0 : state W,
            scanParameters paramName (pre ++ bad :: post) st0 =
              (st0, Panicked NilDereference)).
  { intros st0.
    induction Hpre as [|param rest (q & name & -> & Hq & Hne) _ IH]; simpl.
    - destruct Hbad as [->|(p & -> & [Hname|[Hname Hvalue]])]; [reflexivity| |];
        unfold bind; simpl; rewrite Hname; simpl; [reflexivity|].
      rewrite String.eqb_refl, Hvalue. reflexivity.
    - unfold bind; simpl. rewrite Hq; simpl.
      destruct (String.eqb_spec name paramName); [congruence | exact IH]. }
  rewrite Hscan. reflexivity.
Qed.

End ResolverAndLookup.

Lemma second_page_throttled_fails :
  fails_on_page Faults.second_page_throttled 2 "shared_preload_libraries"
    (AwsErr "Throttling" "rate exceeded") (first_request pinned_resolved)
    (world Doubles.start).
Proof.
  simpl. eexists _, _. split; [reflexivity|]. simpl.
  split; [solve_no_match|]. split; [reflexivity|].
  eexists _, _. reflexivity.
Defined.

Lemma getDefaultEngineParameter_request_error_witness :
  exists st',
    getDefaultEngineParameter Faults.second_page_throttled 5
      "shared_preload_libraries" pinned Doubles.start =
      (st', Done (pinned_resolved, ("", Some (AwsErr "Throttling" "rate exceeded")))) /\
    page_requests (trace st') = page_requests (trace Doubles.start) + 2.
Proof.
  apply (getDefaultEngineParameter_request_error Faults.second_page_throttled
           "shared_preload_libraries" (AwsErr "Throttling" "rate exceeded")
           pinned pinned_resolved Doubles.start Doubles.start 2 5 eq_refl
           second_page_throttled_fails).
  lia.
Defined.

Lemma getDefaultEngineParameter_family_witness :
  exists t,
    trace (fst (getDefaultEngineParameter Doubles.two_pages 2
                  "shared_preload_libraries" pinned Doubles.start)) =
      (trace Doubles.start ++ t)%list /\
    List.Forall (fun e => versions_event (DbType pinned) e \/
                          lookup_event (ParameterGroupFamily pinned_resolved) e) t.
Proof.
  apply (getDefaultEngineParameter_family Doubles.two_pages 2
           "shared_preload_libraries" pinned pinned_resolved Doubles.start
           (fst (getDefaultEngineParameter Doubles.two_pages 2
                   "shared_preload_libraries" pinned Doubles.start))
           ("pg_stat_statements", None)).
  vm_compute. reflexivity.
Defined.

Lemma engineDefaultsLoop_malformed_page_witness :
  snd (engineDefaultsLoop Faults.nameless_parameter 1 "shared_preload_libraries"
         (first_request pinned_resolved) Doubles.start) = Panicked NilDereference.
Proof.
  apply (engineDefaultsLoop_malformed_page Faults.nameless_parameter 0
           "shared_preload_libraries" (first_request pinned_resolved) Doubles.start
           1 _ eq_refl).
  right. right.
  exists {| Marker := None;
            edParameters :=
              [Doubles.named "max_connections" "100";
               Some {| ApplyMethod := None; ParameterName := None;
                       ParameterValue := Some "1" |};
               Doubles.named "shared_preload_libraries" "x"] |},
         [Doubles.named "max_connections" "100"],
         (Some {| ApplyMethod := None; ParameterName := None;
                  ParameterValue := Some "1" |}),
         [Doubles.named "shared_preload_libraries" "x"].
  split; [reflexivity|]. split; [reflexivity|]. split; [solve_no_match|].
  right. eexists. split; [reflexivity|]. left. reflexivity.
Defined.

(** ** More on the cleanup sweep *)

Section SweepReturns.

Context {W : Type}.
Variable svc : RDSAPI W.

Lemma cleanupGroups_returns (pgroups : list (option DBParameterGroup)) :
  delete_errors_coded svc -> all_named pgroups ->
  forall st : state W, exists st', cleanupGroups svc pgroups st = (st', Done tt).
Proof.
  intros Hcoded Hnamed.
  induction Hnamed as [|pgroup rest [name ->] _ IH]; intros st; simpl; [eauto|].
  assert (Hstep : exists st1,
            cleanupGroup svc (Some {| DBParameterGroupName := Some name |}) st =
              (st1, Done tt)).
  { unfold cleanupGroup, bind, call; simpl.
    destruct (String.prefix pGroupPrefix name); simpl; [|eauto].
    pose proof (Hcoded {| delDBParameterGroupName := name |} (world st)) as He.
    destruct (DeleteDBParameterGroup svc _ (world st)) as [w' [e|]]; simpl in *;
      [|eauto].
    destruct (He e eq_refl) as (code & message & ->). simpl.
    destruct (negb _); simpl; eauto. }
  destruct Hstep as (st1 & Hrun1). destruct (IH st1) as (st' & Hrun).
  exists st'. unfold bind. now rewrite Hrun1.
Qed.

Lemma cleanupPage_returns (page : DescribeDBParameterGroupsOutput) (lastPage : bool) :
  delete_errors_coded svc -> all_named (DBParameterGroups page) ->
  forall st : state W, exists st', cleanupPage svc page lastPage st = (st', Done true).
Proof.
  intros Hcoded Hnamed st. unfold cleanupPage, bind.
  destruct (cleanupGroups_returns _ Hcoded Hnamed st) as (st' & ->). eauto.
Qed.

Lemma pages_return (n : nat) :
  delete_errors_coded svc -> pages_named svc ->
  forall (fuel : nat) (input : DescribeDBParameterGroupsInput) (st : state W),
    listing_ends svc n input -> n <= fuel ->
    exists st' err,
      DescribeDBParameterGroupsPages svc fuel input (cleanupPage svc) st =
        (st', Done err).
Proof.
  intros Hcoded Hnamed.
  induction n as [|n IH]; intros fuel input st Hend Hfuel; [destruct Hend|].
  destruct fuel as [|fuel]; [lia|].
  simpl. unfold bind at 1. unfold call. simpl in Hend. specialize (Hend (world st)).
  destruct (DescribeDBParameterGroups svc input (world st)) as [w' [page|e]] eqn:Hcall;
    [|eauto].
  unfold bind.
  match goal with
  | |- context [cleanupPage svc page ?last ?s] =>
      destruct (cleanupPage_returns page last Hcoded (Hnamed _ _ _ _ Hcall) s)
        as (st1 & Hrun)
  end.
  rewrite Hrun. simpl.
  destruct (marker_is_empty (dgNextMarker page)) eqn:Hmarker; simpl; [eauto|].
  destruct Hend as [Hend|Hend]; [discriminate|].
  apply IH; [exact Hend | lia].
Qed.

(** A sweep returns normally, without a fault, when the errors of failed
    deletions carry a code, the groups listed have names and the listing ends
    within the fuel; and a listing that fails at its first request is logged
    and ends the sweep, with no deletion requested. *)
Theorem cleanupCustomParameterGroups_returns (n fuel : nat) (st : state W) :
  (delete_errors_coded svc -> pages_named svc ->
   listing_ends svc n {| dgMarker := None |} -> n <= fuel ->
   exists st', cleanupCustomParameterGroups svc fuel st = (st', Done tt)) /\
  (forall w' e,
     DescribeDBParameterGroups svc {| dgMarker := None |} (world st) = (w', inr e) ->
     cleanupCustomParameterGroups svc (S fuel) st =
       ({| world := w';
           trace :=
             (trace st ++ [CallDescribeDBParameterGroups {| dgMarker := None |}]) ++
             [Log ("Could not retrieve list of parameter groups while cleaning up: " +:+
                   Error_ e)] |},
        Done tt)).
Proof.
  split.
  - intros Hcoded Hnamed Hend Hfuel. unfold cleanupCustomParameterGroups, bind.
    destruct (pages_return n Hcoded Hnamed fuel _ st Hend Hfuel) as (st1 & err & Hrun).
    rewrite Hrun. destruct err as [e|]; simpl; eauto.
  - intros w' e Hcall. unfold cleanupCustomParameterGroups. simpl.
    unfold bind, call. rewrite Hcall. reflexivity.
Qed.

(** A page that holds only groups without the broker's prefix leaves
    everything as it was: no request, no line in the log. *)
Theorem cleanupGroups_foreign_page (pgroups : list (option DBParameterGroup))
    (st : state W) :
  all_named pgroups ->
  List.Forall (fun name => has_prefix name = false) (group_names pgroups) ->
  cleanupGroups svc pgroups st = (st, Done tt).
Proof.
  intros Hnamed. revert st.
  induction Hnamed as [|pgroup rest [name ->] _ IH]; intros st Hforeign; simpl;
    [reflexivity|].
  simpl in Hforeign. apply List.Forall_cons_iff in Hforeign as [Hname Hrest].
  unfold bind. unfold cleanupGroup at 1. unfold bind, call; simpl.
  unfold has_prefix in Hname. rewrite Hname. simpl. apply IH. exact Hrest.
Qed.

End SweepReturns.

Lemma coded_failures_named : pages_named Doubles.coded_failures.
Proof.
  intros [[marker|]] w w' page; simpl; intros [= <- <-];
    repeat (apply List.Forall_cons; [eexists; reflexivity|]); apply List.Forall_nil.
Defined.

Lemma coded_failures_listing_ends :
  listing_ends Doubles.coded_failures 2 {| dgMarker := None |}.
Proof. simpl. intros w. right. intros w'. left. reflexivity. Defined.

Lemma cleanupCustomParameterGroups_returns_witness :
  (exists st',
     cleanupCustomParameterGroups Doubles.coded_failures 2 Doubles.start = (st', Done tt)) /\
  cleanupCustomParameterGroups Faults.listing_denied 1 Doubles.start =
    ({| world := 1;
        trace :=
          (trace Doubles.start ++ [CallDescribeDBParameterGroups {| dgMarker := None |}]) ++
          [Log ("Could not retrieve list of parameter groups while cleaning up: " +:+
                Error_ (AwsErr "AccessDenied" "not authorized"))] |},
     Done tt).
Proof.
  split.
  - apply (proj1 (cleanupCustomParameterGroups_returns Doubles.coded_failures 2 2
                    Doubles.start) coded_failures_coded coded_failures_named
             coded_failures_listing_ends).
    lia.
  - apply (proj2 (cleanupCustomParameterGroups_returns Faults.listing_denied 0 0
                    Doubles.start) 1 (AwsErr "AccessDenied" "not authorized")).
    reflexivity.
Defined.

Lemma cleanupGroups_foreign_page_witness :
  cleanupGroups Doubles.uncoded_failure
    [Doubles.group "default.mysql8.0"; Doubles.group "default.postgres15"]
    Doubles.start = (Doubles.start, Done tt).
Proof.
  apply (cleanupGroups_foreign_page Doubles.uncoded_failure
           [Doubles.group "default.mysql8.0"; Doubles.group "default.postgres15"]
           Doubles.start).
  - repeat (apply List.Forall_cons; [eexists; reflexivity|]). apply List.Forall_nil.
  - repeat (apply List.Forall_cons; [reflexivity|]). apply List.Forall_nil.
Defined.
